(** * NICERsoft: the MCC ephemeris class of [nicer/mcc.py]

    A shallow embedding of the class [MCC] (constructor [__init__] and query
    method [latlon]) together with the properties its specification states.

    Conventions of the model.
    - A Python [float] is an exact rational ([Qc], rationals in lowest terms,
      so that Leibniz equality is numeric equality).  Rounding of binary
      floating point is not modelled, and the literals [inf] and [nan], which
      have no rational value, are read as non-numeric text.  The properties
      stated are those that do not rest on this: which statement raises and
      what it raises, what is read of the file, what is handed to the
      libraries, and the order of the stored times.
    - An astropy [Time] is the number of SI seconds elapsed on a uniform
      (TAI) axis; adding a duration to a [Time] and subtracting two [Time]s
      are then plain additions and subtractions, as astropy performs them.
    - A [Quantity] is its value in SI units (seconds, metres).
    - Exceptions are values of [exn]; a computation that may raise returns a
      [result].
    - What lives outside the repository is taken as an interface: the ISO
      date parser of [astropy.time] ([TimeLib]), the FITPACK spline kernel
      behind [scipy.interpolate] ([SplineKernel]), the GCRS to ITRS frame
      transform of [astropy.coordinates] ([FrameLib]) and the constant
      [MET0] of [nicer.values] ([Values]).  The Python-level argument
      checks of numpy and scipy that decide which inputs are accepted are
      written out. *)

From Stdlib Require Import ZArith QArith Qcanon Qround List String Ascii Bool Lia.
From Stdlib Require Import DecimalString Sorted Field.
Import ListNotations.

Set Implicit Arguments.

(* ================================================================== *)
(** * The Python runtime *)
(* ================================================================== *)

Module Py.

(** The interpreter that runs the module.  The builtin [file] exists in
    Python 2 only. *)
Inductive runtime : Type := Python2 | Python3.

(** The exceptions the constructor and the query can raise, one constructor
    per raising statement. *)
Inductive exn : Type :=
| NameError_file              (* [file(...)]: name 'file' is not defined *)
| IOError_no_such_file        (* [file(mccname)]: no such file *)
| IndexError_header           (* [header2.split()[0]]: list index out of range *)
| ValueError_float            (* [float(...)]: could not convert string to float *)
| ValueError_time_format      (* [Time(..., format="isot")]: not an ISO date *)
| IndexError_usecols          (* [np.loadtxt]: a row is shorter than [usecols] *)
| ValueError_field            (* [np.loadtxt]: could not convert string to float *)
| IndexError_no_columns       (* [cols[i]] on the empty array of an empty table *)
| ValueError_diff_0d          (* [numpy.diff] of a 0-d array, in the spline constructor *)
| ValueError_not_increasing   (* spline constructor: x must be strictly increasing *)
| Fitpack_m_le_k              (* [dfitpack.fpcurf0]: (m>k) failed *)
| ValueError_out_of_domain.   (* spline call with [ext="raise"] outside the data range *)

(** The Python class of each exception. *)
Inductive pyclass : Type :=
| NameError | IOError | IndexError | ValueError | dfitpack_error.

Definition class_of (e : exn) : pyclass :=
  match e with
  | NameError_file => NameError
  | IOError_no_such_file => IOError
  | IndexError_header | IndexError_usecols | IndexError_no_columns => IndexError
  | ValueError_float | ValueError_time_format | ValueError_field
  | ValueError_diff_0d | ValueError_not_increasing
  | ValueError_out_of_domain => ValueError
  | Fitpack_m_le_k => dfitpack_error
  end.

(** A computation that returns a value or raises. *)
Inductive result (A : Type) : Type :=
| Ok (a : A)
| Raise (e : exn).
Arguments Ok {A} a.
Arguments Raise {A} e.

Definition bind {A B : Type} (m : result A) (k : A -> result B) : result B :=
  match m with
  | Ok a => k a
  | Raise e => Raise e
  end.

Definition of_option {A : Type} (e : exn) (o : option A) : result A :=
  match o with
  | Some a => Ok a
  | None => Raise e
  end.

(** ** Strings *)

Definition isspace (c : ascii) : bool :=
  let n := nat_of_ascii c in
  Nat.eqb n 32 || (Nat.leb 9 n && Nat.leb n 13).

Definition newline : ascii := ascii_of_nat 10.

Fixpoint lstrip (s : string) : string :=
  match s with
  | EmptyString => EmptyString
  | String c s' => if isspace c then lstrip s' else s
  end.

Fixpoint rev_string (s acc : string) : string :=
  match s with
  | EmptyString => acc
  | String c s' => rev_string s' (String c acc)
  end.

(** [s.strip()] *)
Definition strip (s : string) : string :=
  rev_string (lstrip (rev_string (lstrip s) EmptyString)) EmptyString.

Definition snoc (w : string) (c : ascii) : string :=
  String.append w (String c EmptyString).

Fixpoint split_from (s : string) (cur : option string) : list string :=
  match s with
  | EmptyString =>
      match cur with Some w => [w] | None => [] end
  | String c s' =>
      if isspace c then
        match cur with
        | Some w => w :: split_from s' None
        | None => split_from s' None
        end
      else
        split_from s' (Some (match cur with
                             | Some w => snoc w c
                             | None => String c EmptyString
                             end))
  end.

(** [s.split()]: the maximal runs of non-blank characters. *)
Definition split (s : string) : list string := split_from s None.

(** [l[i]] on a Python list. *)
Definition getitem {A : Type} (e : exn) (l : list A) (i : nat) : result A :=
  of_option e (nth_error l i).

(** ** [float(s)] *)

Definition digit (c : ascii) : option Z :=
  let n := nat_of_ascii c in
  if Nat.leb 48 n && Nat.leb n 57 then Some (Z.of_nat (n - 48)) else None.

(** Reads the longest prefix of decimal digits: the value accumulated on
    [acc], the number of digits read, and the rest. *)
Fixpoint digits (s : string) (acc : Z) (n : nat) : Z * nat * string :=
  match s with
  | EmptyString => (acc, n, s)
  | String c s' =>
      match digit c with
      | Some d => digits s' (10 * acc + d)%Z (S n)
      | None => (acc, n, s)
      end
  end.

Definition is_char (c : ascii) (s : string) : bool :=
  match s with
  | String c' _ => Ascii.eqb c c'
  | EmptyString => false
  end.

Definition tail (s : string) : string :=
  match s with
  | String _ s' => s'
  | EmptyString => EmptyString
  end.

(** An optional sign: [true] when negative. *)
Definition sign (s : string) : bool * string :=
  if is_char "-" s then (true, tail s)
  else if is_char "+" s then (false, tail s)
  else (false, s).

Definition pow10 (e : Z) : Qc :=
  if (0 <=? e)%Z then Q2Qc (inject_Z (10 ^ e))
  else Q2Qc (1 # Z.to_pos (10 ^ (- e))).

(** The exponent part, when there is one: the exponent and nothing left. *)
Definition exponent (s : string) : option Z :=
  match s with
  | EmptyString => Some 0%Z
  | String c s' =>
      if Ascii.eqb c "e" || Ascii.eqb c "E" then
        let (neg, s1) := sign s' in
        match digits s1 0%Z 0 with
        | (_, O, _) => None
        | (v, S _, EmptyString) => Some (if neg then (- v)%Z else v)
        | (_, S _, String _ _) => None
        end
      else None
  end.

(** A decimal literal: sign, integer digits, fraction, exponent; at least
    one digit in the mantissa. *)
Definition float_literal (s : string) : option Qc :=
  let (neg, s0) := sign s in
  let '(ip, n1, s1) := digits s0 0%Z 0 in
  let '(m, n2, s2) :=
    if is_char "." s1 then digits (tail s1) ip 0 else (ip, 0%nat, s1) in
  match (n1 + n2)%nat with
  | O => None
  | S _ =>
      match exponent s2 with
      | Some ex =>
          let v := (Q2Qc (inject_Z m) * pow10 (ex - Z.of_nat n2))%Qc in
          Some (if neg then (- v)%Qc else v)
      | None => None
      end
  end.

(** [float(s)]: blanks around the literal are allowed. *)
Definition float (s : string) : result Qc :=
  of_option ValueError_float (float_literal (strip s)).

(** ** ["{0:4.0f}".format(y)] *)

Definition half : Qc := Q2Qc (1 # 2).

(** Rounding to an integer, ties to even. *)
Definition round_half_even (q : Qc) : Z :=
  let f := Qfloor q in
  match ((q - Q2Qc (inject_Z f)) ?= half)%Qc with
  | Lt => f
  | Gt => (f + 1)%Z
  | Eq => if Z.even f then f else (f + 1)%Z
  end.

Fixpoint spaces (n : nat) : string :=
  match n with
  | O => EmptyString
  | S n' => String " " (spaces n')
  end.

Definition rjust (width : nat) (s : string) : string :=
  String.append (spaces (width - String.length s)) s.

(** No decimals, right-aligned on four columns; a negative value that rounds
    to zero keeps its sign. *)
Definition format_4_0f (y : Qc) : string :=
  let r := round_half_even y in
  let body := NilZero.string_of_int (Z.to_int r) in
  rjust 4 (match (y ?= Q2Qc 0)%Qc, r with
           | Lt, Z0 => String "-" body
           | _, _ => body
           end).

(** ** Files *)

(** The file system: the text behind each path that can be opened. *)
Definition filesystem : Type := string -> option string.

(** An open file: the text not yet read. *)
Definition fileobj : Type := string.

(** The builtin [file(name)].  Under Python 3 the name [file] is not bound,
    and its lookup raises before anything is opened. *)
Definition file (rt : runtime) (fs : filesystem) (name : string) : result fileobj :=
  match rt with
  | Python3 => Raise NameError_file
  | Python2 => of_option IOError_no_such_file (fs name)
  end.

(** [f.readline()]: the text up to and including the next newline, and the
    file advanced past it; the empty string at end of file. *)
Fixpoint readline (f : fileobj) : string * fileobj :=
  match f with
  | EmptyString => (EmptyString, EmptyString)
  | String c f' =>
      if Ascii.eqb c newline then (String c EmptyString, f')
      else let (l, r) := readline f' in (String c l, r)
  end.

Fixpoint lines_from (f : fileobj) (cur : string) : list string :=
  match f with
  | EmptyString =>
      match cur with EmptyString => [] | _ => [cur] end
  | String c f' =>
      if Ascii.eqb c newline then snoc cur c :: lines_from f' EmptyString
      else lines_from f' (snoc cur c)
  end.

(** Iterating over the file: the remaining lines. *)
Definition readlines (f : fileobj) : list string := lines_from f EmptyString.

End Py.

Notation "x <- m ;; k" := (Py.bind m (fun x => k))
  (at level 61, m at next level, right associativity).

(* ================================================================== *)
(** * numpy *)
(* ================================================================== *)

Module Numpy.
Import Py.

(** An array of dimension 0 or 1. *)
Inductive ndarray (A : Type) : Type :=
| Scalar (a : A)
| Array1 (l : list A).
Arguments Scalar {A} a.
Arguments Array1 {A} l.

Definition tolist {A : Type} (a : ndarray A) : list A :=
  match a with
  | Scalar v => [v]
  | Array1 l => l
  end.

(** An operation applied to every element. *)
Definition nd_map {A B : Type} (f : A -> B) (a : ndarray A) : ndarray B :=
  match a with
  | Scalar v => Scalar (f v)
  | Array1 l => Array1 (map f l)
  end.

(** A binary operation applied element by element, a 0-d operand being
    repeated along the other one.  (Both 1-d operands always have the same
    length here.) *)
Definition nd_map2 {A B C : Type} (f : A -> B -> C)
    (a : ndarray A) (b : ndarray B) : ndarray C :=
  match a, b with
  | Scalar x, Scalar y => Scalar (f x y)
  | Scalar x, Array1 ys => Array1 (map (f x) ys)
  | Array1 xs, Scalar y => Array1 (map (fun x => f x y) xs)
  | Array1 xs, Array1 ys => Array1 (map (fun p => f (fst p) (snd p)) (combine xs ys))
  end.

Fixpoint pairwise_diff (l : list Qc) : list Qc :=
  match l with
  | a :: (b :: _) as l' => (b - a)%Qc :: pairwise_diff l'
  | _ => []
  end.

(** [numpy.diff(x)]: the axis [-1] does not exist in a 0-d array. *)
Definition diff (x : ndarray Qc) : result (list Qc) :=
  match x with
  | Scalar _ => Raise ValueError_diff_0d
  | Array1 l => Ok (pairwise_diff l)
  end.

(** ** [loadtxt] *)

(** The text before the first [#]. *)
Fixpoint strip_comment (line : string) : string :=
  match line with
  | EmptyString => EmptyString
  | String c s => if Ascii.eqb c "#" then EmptyString else String c (strip_comment s)
  end.

(** The fields of a line: comment removed, split on blanks. *)
Definition split_line (line : string) : list string :=
  split (strip_comment line).

(** A row read with [usecols=(0, 1, 2, 3)]. *)
Record row : Type := Row { c0 : Qc; c1 : Qc; c2 : Qc; c3 : Qc }.

(** The converter of a column of dtype [float]. *)
Definition floatconv (s : string) : result Qc :=
  of_option ValueError_field (float_literal (strip s)).

(** The four columns are picked first (a short row raises there), then
    converted. *)
Definition read_row (vals : list string) : result row :=
  v0 <- getitem IndexError_usecols vals 0 ;;
  v1 <- getitem IndexError_usecols vals 1 ;;
  v2 <- getitem IndexError_usecols vals 2 ;;
  v3 <- getitem IndexError_usecols vals 3 ;;
  a <- floatconv v0 ;;
  b <- floatconv v1 ;;
  c <- floatconv v2 ;;
  d <- floatconv v3 ;;
  Ok (Row a b c d).

(** Lines without a field are skipped. *)
Fixpoint read_data (lines : list string) : result (list row) :=
  match lines with
  | [] => Ok []
  | l :: ls =>
      match split_line l with
      | [] => read_data ls
      | vals => r <- read_row vals ;; rs <- read_data ls ;; Ok (r :: rs)
      end
  end.

(** [np.loadtxt(f, usecols=(0, 1, 2, 3), unpack=True)]: the table squeezed
    and transposed.  No row gives the empty 1-d array, a single row gives a
    1-d array of four numbers (so each column is 0-d), and two rows or more
    give the four columns. *)
Definition loadtxt (f : fileobj) : result (list (ndarray Qc)) :=
  X <- read_data (readlines f) ;;
  Ok (match X with
      | [] => []
      | [r] => [Scalar (c0 r); Scalar (c1 r); Scalar (c2 r); Scalar (c3 r)]
      | _ => [Array1 (map c0 X); Array1 (map c1 X);
              Array1 (map c2 X); Array1 (map c3 X)]
      end).

End Numpy.

(* ================================================================== *)
(** * scipy.interpolate *)
(* ================================================================== *)

Module Scipy.
Import Py Numpy.

(** The FITPACK kernel: [splev xs ys u] is the value at [u] of the cubic
    spline that [fpcurf0] fits (smoothing factor 0) to the data [xs], [ys]. *)
Class SplineKernel : Type := { splev : list Qc -> list Qc -> Qc -> Qc }.

(** What FITPACK promises of a fit with smoothing factor 0 on strictly
    increasing abscissae: the spline takes the data values at the data
    points. *)
Definition interpolating (K : SplineKernel) : Prop :=
  forall (xs ys : list Qc) (i : nat) (x y : Qc),
    StronglySorted Qclt xs ->
    List.length ys = List.length xs ->
    (3 < List.length xs)%nat ->
    nth_error xs i = Some x ->
    nth_error ys i = Some y ->
    splev xs ys x = y.

(** The keyword [ext]. *)
Inductive ext_mode : Type :=
| ext_extrapolate | ext_zeros | ext_raise | ext_const.

(** A fitted spline: the data it was fitted to and its mode. *)
Record spline : Type :=
  { sp_x : list Qc; sp_y : list Qc; sp_ext : ext_mode }.

(** The default degree. *)
Definition k : nat := 3.

Definition Qcltb (a b : Qc) : bool :=
  match (a ?= b)%Qc with Lt => true | _ => false end.

Definition Qcleb (a b : Qc) : bool :=
  match (a ?= b)%Qc with Gt => false | _ => true end.

(** [InterpolatedUnivariateSpline(x, y, ext=ext)]: [x] must be strictly
    increasing, and FITPACK wants more points than the degree. *)
Definition InterpolatedUnivariateSpline (x y : ndarray Qc) (ext : ext_mode)
  : result spline :=
  d <- diff x ;;
  if negb (forallb (Qcltb (Q2Qc 0)) d) then Raise ValueError_not_increasing
  else if Nat.leb (List.length (tolist x)) k then Raise Fitpack_m_le_k
  else Ok {| sp_x := tolist x; sp_y := tolist y; sp_ext := ext |}.

(** The ends of the data range. *)
Definition xb (s : spline) : Qc := hd (Q2Qc 0) (sp_x s).
Definition xe (s : spline) : Qc := last (sp_x s) (Q2Qc 0).

Section Call.
Context {K : SplineKernel}.

(** [s(u)]: outside the data range the mode decides. *)
Definition call (s : spline) (u : Qc) : result Qc :=
  let v := splev (sp_x s) (sp_y s) in
  if Qcltb u (xb s) then
    match sp_ext s with
    | ext_extrapolate => Ok (v u)
    | ext_zeros => Ok (Q2Qc 0)
    | ext_raise => Raise ValueError_out_of_domain
    | ext_const => Ok (v (xb s))
    end
  else if Qcltb (xe s) u then
    match sp_ext s with
    | ext_extrapolate => Ok (v u)
    | ext_zeros => Ok (Q2Qc 0)
    | ext_raise => Raise ValueError_out_of_domain
    | ext_const => Ok (v (xe s))
    end
  else Ok (v u).

End Call.

End Scipy.

(* ================================================================== *)
(** * astropy *)
(* ================================================================== *)

Module Astropy.

(** [Time(s, format="isot", scale="utc")]: the instant an ISO date names,
    when it is one. *)
Class TimeLib : Type := { Time_isot_utc : string -> option Qc }.

(** ** Units *)

(** [astropy.units.imperial]: the foot is twelve inches of 2.54 cm. *)
Definition cm : Qc := Q2Qc (1 # 100).
Definition inch : Qc := (Q2Qc (254 # 100) * cm)%Qc.
Definition foot : Qc := (Q2Qc 12 * inch)%Qc.

(** ** Coordinates *)

(** A position in the inertial frame GCRS at an observation time. *)
Record GCRS : Type :=
  { gcrs_cart : Qc * Qc * Qc; gcrs_obstime : Qc }.

(** The Earth-fixed frame ITRS at an observation time. *)
Record ITRS : Type := { itrs_obstime : Qc }.

(** The frame transform and the geodetic conversion. *)
Class FrameLib : Type :=
  { ecef : Type;
    angle : Type;
    transform_to : GCRS -> ITRS -> ecef;
    earth_location_lat : ecef -> angle;
    earth_location_lon : ecef -> angle }.

End Astropy.

(* ================================================================== *)
(** * nicer.values *)
(* ================================================================== *)

Module Values.

(** Modelled from the spec: the module [nicer/values.py], which defines
    [MET0], is not among the sources.  The specification gives [MET0] as a
    fixed absolute instant, the origin of mission elapsed time, read-only. *)
Class Values : Type := { MET0 : Qc }.

End Values.

(* ================================================================== *)
(** * The error names of the specification *)
(* ================================================================== *)

Module Spec.
Import Py.

(** The specification names three kinds of failure; the code raises plain
    Python exceptions.  Each name is read as the set of exceptions raised
    for that cause. *)



(** A query outside the range of the data. *)
Definition OutOfRangeError (e : exn) : bool :=
  match e with
  | ValueError_out_of_domain => true
  | _ => false
  end.

End Spec.

(* ================================================================== *)
(** * nicer/mcc.py *)
(* ================================================================== *)

Module Mcc.
Import Py Numpy Scipy Astropy Values.

Section Class_MCC.
Context {TL : TimeLib} {SK : SplineKernel} {FL : FrameLib} {V : Values}.

(** The attributes of an instance. *)
Record MCC : Type :=
  { mcc_epoch_year : Qc;
    mcc_epoch : Qc;
    t : ndarray Qc;
    met : ndarray Qc;
    eci_x : ndarray Qc;
    eci_y : ndarray Qc;
    eci_z : ndarray Qc;
    eci_x_interp : spline;
    eci_y_interp : spline;
    eci_z_interp : spline;
    lat : ndarray angle;
    lon : ndarray angle }.

(** ["{0:4.0f}-01-01T00:00:00".format(y)] *)
Definition epoch_isot (y : Qc) : string :=
  String.append (format_4_0f y) "-01-01T00:00:00".

(** [CartesianRepresentation(x, y, z)] *)
Definition CartesianRepresentation (x y z : ndarray Qc) : ndarray (Qc * Qc * Qc) :=
  nd_map2 (fun xy c => (fst xy, snd xy, c)) (nd_map2 pair x y) z.

(** [MCC(mccname)]: the body of [__init__]; the attributes are those of the
    instance when it returns, and no instance is left when it raises. *)
Definition __init__ (rt : runtime) (fs : filesystem) (mccname : string)
  : result MCC :=
  mccfile <- file rt fs mccname ;;
  let (line1, mccfile) := readline mccfile in
  let header1 := strip line1 in
  let (line2, mccfile) := readline mccfile in
  let header2 := strip line2 in
  token <- getitem IndexError_header (split header2) 0 ;;
  year <- float token ;;
  epoch <- of_option ValueError_time_format (Time_isot_utc (epoch_isot year)) ;;
  cols <- loadtxt mccfile ;;
  cols0 <- getitem IndexError_no_columns cols 0 ;;
  let t_ := nd_map (fun s => (s + epoch)%Qc) cols0 in
  let met_ := nd_map (fun T => (T - MET0)%Qc) t_ in
  cols1 <- getitem IndexError_no_columns cols 1 ;;
  let x := nd_map (fun v => (v * foot)%Qc) cols1 in
  cols2 <- getitem IndexError_no_columns cols 2 ;;
  let y := nd_map (fun v => (v * foot)%Qc) cols2 in
  cols3 <- getitem IndexError_no_columns cols 3 ;;
  let z := nd_map (fun v => (v * foot)%Qc) cols3 in
  fx <- InterpolatedUnivariateSpline met_ x ext_raise ;;
  fy <- InterpolatedUnivariateSpline met_ y ext_raise ;;
  fz <- InterpolatedUnivariateSpline met_ z ext_raise ;;
  let cart := CartesianRepresentation x y z in
  let eci := nd_map2 Build_GCRS cart t_ in
  let ecef := nd_map2 transform_to eci (nd_map Build_ITRS t_) in
  Ok {| mcc_epoch_year := year;
        mcc_epoch := epoch;
        t := t_;
        met := met_;
        eci_x := x;
        eci_y := y;
        eci_z := z;
        eci_x_interp := fx;
        eci_y_interp := fy;
        eci_z_interp := fz;
        lat := nd_map earth_location_lat ecef;
        lon := nd_map earth_location_lon ecef |}.

(** ** Methods

    A method receives the instance and hands it back with its outcome: it
    may read and rebind attributes. *)
Definition method (A : Type) : Type := MCC -> result A * MCC.

Definition mret {A : Type} (a : A) : method A := fun self => (Ok a, self).

Definition mbind {A B : Type} (m : method A) (f : A -> method B) : method B :=
  fun self =>
    match m self with
    | (Ok a, self') => f a self'
    | (Raise e, self') => (Raise e, self')
    end.

(** [self.attr] *)
Definition getattr {A : Type} (attr : MCC -> A) : method A :=
  fun self => (Ok (attr self), self).

(** A call that does not involve the instance. *)
Definition lift {A : Type} (r : result A) : method A := fun self => (r, self).

Notation "x <~ m ;; f" := (mbind m (fun x => f))
  (at level 61, m at next level, right associativity).

(** [self.latlon(met)] *)
Definition latlon (met : Qc) : method (angle * angle) :=
  fx <~ getattr eci_x_interp ;;
  x <~ lift (call fx met) ;;
  fy <~ getattr eci_y_interp ;;
  y <~ lift (call fy met) ;;
  fz <~ getattr eci_z_interp ;;
  z <~ lift (call fz met) ;;
  let cart := (x, y, z) in
  let eci := {| gcrs_cart := cart; gcrs_obstime := (MET0 + met)%Qc |} in
  let ecef := transform_to eci {| itrs_obstime := (MET0 + met)%Qc |} in
  let lat := earth_location_lat ecef in
  let lon := earth_location_lon ecef in
  mret (lat, lon).

(** ** The vocabulary of the specification *)

(** The collaborator [geodetic_of(position, instant)]: rotation to the
    Earth-fixed frame at the instant, then latitude and longitude. *)
Definition geodetic_of (p : Qc * Qc * Qc) (instant : Qc) : angle * angle :=
  let ecef := transform_to {| gcrs_cart := p; gcrs_obstime := instant |}
                           {| itrs_obstime := instant |} in
  (earth_location_lat ecef, earth_location_lon ecef).

(** The samples of the table: time offset and position. *)
Definition samples (self : MCC) : list (Qc * (Qc * Qc * Qc)) :=
  combine (tolist (met self))
          (combine (combine (tolist (eci_x self)) (tolist (eci_y self)))
                   (tolist (eci_z self))).

Definition Qcmin (a b : Qc) : Qc := if Qcleb a b then a else b.
Definition Qcmax (a b : Qc) : Qc := if Qcleb a b then b else a.

(** The least and the greatest time offset of the table. *)
Definition t_min (self : MCC) : Qc :=
  match tolist (met self) with
  | [] => Q2Qc 0
  | a :: l => fold_left Qcmin l a
  end.

Definition t_max (self : MCC) : Qc :=
  match tolist (met self) with
  | [] => Q2Qc 0
  | a :: l => fold_left Qcmax l a
  end.

(** The instance that a header giving [year] and [epoch] and the rows [X]
    lead to. *)
Definition instance_of (year epoch : Qc) (X : list row) : MCC :=
  let T r := (c0 r + epoch)%Qc in
  let M r := (c0 r + epoch - MET0)%Qc in
  let P r := ((c1 r * foot)%Qc, (c2 r * foot)%Qc, (c3 r * foot)%Qc) in
  let E r := transform_to {| gcrs_cart := P r; gcrs_obstime := T r |}
                          {| itrs_obstime := T r |} in
  {| mcc_epoch_year := year;
     mcc_epoch := epoch;
     t := Array1 (map T X);
     met := Array1 (map M X);
     eci_x := Array1 (map (fun r => (c1 r * foot)%Qc) X);
     eci_y := Array1 (map (fun r => (c2 r * foot)%Qc) X);
     eci_z := Array1 (map (fun r => (c3 r * foot)%Qc) X);
     eci_x_interp :=
       {| sp_x := map M X; sp_y := map (fun r => (c1 r * foot)%Qc) X;
          sp_ext := ext_raise |};
     eci_y_interp :=
       {| sp_x := map M X; sp_y := map (fun r => (c2 r * foot)%Qc) X;
          sp_ext := ext_raise |};
     eci_z_interp :=
       {| sp_x := map M X; sp_y := map (fun r => (c3 r * foot)%Qc) X;
          sp_ext := ext_raise |};
     lat := Array1 (map (fun r => earth_location_lat (E r)) X);
     lon := Array1 (map (fun r => earth_location_lon (E r)) X) |}.

End Class_MCC.

(** ** Reading a file the way the constructor does *)

(** The second line, stripped. *)
Definition header2_of (text : string) : string :=
  strip (fst (readline (snd (readline text)))).

(** The file after its two header lines. *)
Definition body_of (text : string) : fileobj :=
  snd (readline (snd (readline text))).

Definition has_field (vals : list string) : bool :=
  match vals with [] => false | _ => true end.

(** The data lines: the lines of the body that have a field. *)
Definition data_lines (text : string) : list (list string) :=
  filter has_field (map split_line (readlines (body_of text))).


(** The first token of line 2 is a number, and the date made of it is one
    that [Time] accepts. *)
Definition header_ok {TL : TimeLib} (text : string) : bool :=
  match split (header2_of text) with
  | token :: _ =>
      match float_literal (strip token) with
      | Some y =>
          match Time_isot_utc (epoch_isot y) with
          | Some _ => true
          | None => false
          end
      | None => false
      end
  | [] => false
  end.

(** A decimal digit. *)
Definition is_digit (c : ascii) : bool :=
  match digit c with Some _ => true | None => false end.

(** A year written with four digits, the first one not zero. *)
Definition year_token (s : string) : bool :=
  match s with
  | String a (String b (String c (String d EmptyString))) =>
      is_digit a && negb (Ascii.eqb a "0") && is_digit b && is_digit c && is_digit d
  | _ => false
  end.

(** Consecutive elements never decrease. *)
Definition nondecreasing (l : list Qc) : Prop :=
  forall (i : nat) (a b : Qc),
    nth_error l i = Some a -> nth_error l (S i) = Some b -> (a <= b)%Qc.

(** The header as the constructor reads it: epoch year and epoch. *)
Definition read_header {TL : TimeLib} (text : string) : result (Qc * Qc) :=
  token <- getitem IndexError_header (split (header2_of text)) 0 ;;
  year <- float token ;;
  epoch <- of_option ValueError_time_format (Time_isot_utc (epoch_isot year)) ;;
  Ok (year, epoch).


(** The rows of the file, as [loadtxt] reads them. *)
Definition read_rows (text : string) : result (list row) :=
  read_data (readlines (body_of text)).

End Mcc.

(* ================================================================== *)
(** * Reference collaborators, for running the model *)
(* ================================================================== *)

Module Reference.
Import Py Numpy Scipy Astropy Values Mcc.

(** ** A calendar for 1 January, from 1972 on *)

(** Days from 0001-01-01 to 1 January of year [Y] (Gregorian). *)
Definition days_before_year (Y : Z) : Z :=
  (365 * (Y - 1) + (Y - 1) / 4 - (Y - 1) / 100 + (Y - 1) / 400)%Z.

(** The year of each leap second inserted since 1972. *)
Definition leap_second_years : list Z :=
  [1972; 1972; 1973; 1974; 1975; 1976; 1977; 1978; 1979; 1981; 1982; 1983;
   1985; 1987; 1989; 1990; 1992; 1993; 1994; 1995; 1997; 1998; 2005; 2008;
   2012; 2015; 2016]%Z.

(** TAI - UTC on 1 January of year [Y]. *)
Definition tai_minus_utc (Y : Z) : Z :=
  (10 + Z.of_nat (List.length (filter (fun y => (y <? Y)%Z) leap_second_years)))%Z.

(** TAI seconds from 0001-01-01 to [Y]-01-01T00:00:00 UTC. *)
Definition jan1 (Y : Z) : Qc :=
  Q2Qc (inject_Z (86400 * days_before_year Y + tai_minus_utc Y)).

(** Accepts exactly [YYYY-01-01T00:00:00] with four digits. *)
Definition calendar : TimeLib :=
  {| Time_isot_utc := fun s =>
       match digits s 0%Z 0 with
       | (Y, 4%nat, rest) =>
           if String.eqb rest "-01-01T00:00:00" && (1972 <=? Y)%Z
           then Some (jan1 Y) else None
       | _ => None
       end |}.

(** Mission elapsed time counted from 2014-01-01T00:00:00 UTC. *)
Definition met0_2014 : Values := {| MET0 := jan1 2014 |}.

(** ** The interpolating polynomial as spline kernel

    On four points the cubic spline without interior knot that FITPACK
    fits is the cubic through the points; the Lagrange form extends it to
    any number of points. *)

Definition Qceqb (a b : Qc) : bool :=
  match (a ?= b)%Qc with Eq => true | _ => false end.

(** The product of [(u - xj) / (xi - xj)] over the nodes [xj] other than [xi]. *)
Fixpoint basis (nodes : list Qc) (xi u : Qc) : Qc :=
  match nodes with
  | [] => Q2Qc 1
  | xj :: nodes' =>
      if Qceqb xj xi then basis nodes' xi u
      else ((u - xj) / (xi - xj) * basis nodes' xi u)%Qc
  end.

Fixpoint lagrange_sum (nodes xs ys : list Qc) (u : Qc) : Qc :=
  match xs, ys with
  | xi :: xs', yi :: ys' => (yi * basis nodes xi u + lagrange_sum nodes xs' ys' u)%Qc
  | _, _ => Q2Qc 0
  end.

Definition lagrange : SplineKernel :=
  {| splev := fun xs ys u => lagrange_sum xs xs ys u |}.

(** ** Frames that record what they are given *)

(** An angle as a term: which coordinate, of which position, seen in which
    frame. *)
Inductive reading : Type :=
| Latitude (p : GCRS) (f : ITRS)
| Longitude (p : GCRS) (f : ITRS).

Definition recorder : FrameLib :=
  {| ecef := GCRS * ITRS;
     angle := reading;
     transform_to := fun p f => (p, f);
     earth_location_lat := fun e => Latitude (fst e) (snd e);
     earth_location_lon := fun e => Longitude (fst e) (snd e) |}.

(** ** Sample files *)

Local Open Scope string_scope.

Definition nl : string := String newline EmptyString.

Definition join_lines (ls : list string) : string :=
  fold_right (fun l acc => String.append l (String.append nl acc)) EmptyString ls.

(** Four samples, one minute apart, epoch year 2020. *)
Definition iss4 : string :=
  join_lines ["ISS ephemeris";
              "2020 001 (epoch year, day)";
              "0.0    1.0  0.0  0.0";
              "60.0   0.0  2.0  0.0   # comment";
              "";
              "120.0  0.0  0.0  3.0  extra";
              "1.8e2  1.0  1.0  1.0"].

(** Three well-formed samples. *)
Definition iss3 : string :=
  join_lines ["ISS ephemeris";
              "2020";
              "0.0    1.0  0.0  0.0";
              "60.0   0.0  2.0  0.0";
              "120.0  0.0  0.0  3.0"].

(** Four well-formed samples, the third before the second. *)
Definition unordered : string :=
  join_lines ["ISS ephemeris";
              "2020";
              "0.0    1.0  0.0  0.0";
              "120.0  0.0  0.0  3.0";
              "60.0   0.0  2.0  0.0";
              "180.0  1.0  1.0  1.0"].

(** Three well-formed samples, the third before the second. *)
Definition unordered3 : string :=
  join_lines ["ISS ephemeris";
              "2020";
              "0.0    1.0  0.0  0.0";
              "120.0  0.0  0.0  3.0";
              "60.0   0.0  2.0  0.0"].

Definition disk : filesystem :=
  fun name =>
    if String.eqb name "iss4.mcc" then Some iss4
    else if String.eqb name "iss3.mcc" then Some iss3
    else if String.eqb name "unordered.mcc" then Some unordered
    else if String.eqb name "unordered3.mcc" then Some unordered3
    else None.

(** The constructor and the query with the reference collaborators. *)
Definition new (rt : runtime) (name : string) : result (@MCC recorder) :=
  @__init__ calendar recorder met0_2014 rt disk name.

Definition query (u : Qc) : @method recorder (reading * reading) :=
  @latlon lagrange recorder met0_2014 u.

(** The constructor on a file of the given lines, under Python 2. *)
Definition load (ls : list string) : result (@MCC recorder) :=
  @__init__ calendar recorder met0_2014 Python2
            (fun _ => Some (join_lines ls)) "ephemeris.mcc".

End Reference.

(* ================================================================== *)
(** * Further vocabulary: array queries, shapes, lines *)
(* ================================================================== *)

Module More.
Import Py Numpy Scipy Astropy Values Mcc Reference.

(** ** Text *)

(** No newline character in the string. *)
Fixpoint no_newline (s : string) : bool :=
  match s with
  | EmptyString => true
  | String c s' => negb (Ascii.eqb c newline) && no_newline s'
  end.

(** ** Arrays *)

(** A 1-d array of [n] elements. *)
Definition vector_of_length {A : Type} (n : nat) (a : ndarray A) : Prop :=
  exists l : list A, a = Array1 l /\ List.length l = n.

(** A call on each element in turn, stopping at the first that raises. *)
Fixpoint traverse {A B : Type} (f : A -> result B) (l : list A) : result (list B) :=
  match l with
  | [] => Ok []
  | a :: l' => b <- f a ;; bs <- traverse f l' ;; Ok (b :: bs)
  end.

Section Array_queries.
Context {SK : SplineKernel} {FL : FrameLib} {V : Values}.

(** [s(u)] for an array [u]: FITPACK evaluates the points in order and, in
    mode [ext="raise"], gives up at the first one outside the data range. *)
Definition call_nd (s : spline) (u : ndarray Qc) : result (ndarray Qc) :=
  match u with
  | Scalar v => x <- call s v ;; Ok (Scalar x)
  | Array1 l => xs <- traverse (call s) l ;; Ok (Array1 xs)
  end.

(** [self.latlon(met)] for an array [met] of query times. *)
Definition latlon_nd (met : ndarray Qc)
  : method (ndarray angle * ndarray angle) :=
  mbind (getattr eci_x_interp) (fun fx =>
  mbind (lift (call_nd fx met)) (fun x =>
  mbind (getattr eci_y_interp) (fun fy =>
  mbind (lift (call_nd fy met)) (fun y =>
  mbind (getattr eci_z_interp) (fun fz =>
  mbind (lift (call_nd fz met)) (fun z =>
  let cart := CartesianRepresentation x y z in
  let obstime := nd_map (fun m => (MET0 + m)%Qc) met in
  let eci := nd_map2 Build_GCRS cart obstime in
  let ecef := nd_map2 transform_to eci (nd_map Build_ITRS obstime) in
  let lat := nd_map earth_location_lat ecef in
  let lon := nd_map earth_location_lon ecef in
  mret (lat, lon))))))).

End Array_queries.

(** ** Years, and a sample file without decoration *)

Local Open Scope string_scope.

Definition digit_chars : list ascii :=
  ["0"; "1"; "2"; "3"; "4"; "5"; "6"; "7"; "8"; "9"]%char.

(** The four-digit years, from ["1000"] to ["9999"]. *)
Definition year_tokens : list string :=
  flat_map (fun a =>
    flat_map (fun b =>
      flat_map (fun c =>
        map (fun d => String a (String b (String c (String d EmptyString))))
            digit_chars) digit_chars) digit_chars) (List.tl digit_chars).

(** [float] reads the token, and formatting the number read gives the date
    of 1 January that starts with the token. *)
Definition reads_as_year (token : string) : bool :=
  match float_literal (strip token) with
  | Some y => String.eqb (epoch_isot y) (token ++ "-01-01T00:00:00")
  | None => false
  end.

(** The samples of [iss4] with another title, the bare year, no comment, no
    blank line and no extra column. *)
Definition plain4 : string :=
  join_lines ["another title";
              "2020";
              "0.0 1.0 0.0 0.0";
              "60.0 0.0 2.0 0.0";
              "120.0 0.0 0.0 3.0";
              "1.8e2 1.0 1.0 1.0"].

End More.

(* ================================================================== *)
(** * Facts about the model *)
(* ================================================================== *)

Module Facts.
Import Py Numpy Scipy Astropy Values Mcc Spec Reference.

(** ** Order on the rationals *)

Lemma Qcltb_lt (a b : Qc) : Qcltb a b = true <-> (a < b)%Qc.
Proof.
  unfold Qcltb. rewrite Qclt_alt.
  destruct (a ?= b)%Qc; split; congruence.
Qed.

Lemma Qcleb_le (a b : Qc) : Qcleb a b = true <-> (a <= b)%Qc.
Proof.
  unfold Qcleb. rewrite Qcle_alt.
  destruct (a ?= b)%Qc; split; congruence.
Qed.

Lemma Qcltb_false (a b : Qc) : Qcltb a b = false <-> (b <= a)%Qc.
Proof.
  split; intro H.
  - apply Qcnot_lt_le. intro L. apply Qcltb_lt in L. congruence.
  - destruct (Qcltb a b) eqn:E; [|reflexivity].
    apply Qcltb_lt in E. exfalso. exact (Qcle_not_lt _ _ H E).
Qed.

Lemma Qclt_transitive : Relations_1.Transitive Qclt.
Proof. intros a b c. apply Qclt_trans. Qed.

Lemma diff_positive (a b : Qc) : Qcltb (Q2Qc 0) (b - a) = true <-> (a < b)%Qc.
Proof.
  rewrite Qcltb_lt. symmetry. apply Qclt_minus_iff.
Qed.

(** ** Strictly increasing lists *)

Lemma diff_positive_sorted (l : list Qc) :
  forallb (Qcltb (Q2Qc 0)) (pairwise_diff l) = true <-> Sorted Qclt l.
Proof.
  induction l as [|a [|b l] IH].
  - simpl. split; auto.
  - simpl. split; auto.
  - change (pairwise_diff (a :: b :: l)) with ((b - a)%Qc :: pairwise_diff (b :: l)).
    cbn [forallb]. rewrite andb_true_iff, diff_positive, IH. split.
    + intros [L S]. constructor; [exact S | constructor; exact L].
    + intro S. inversion S as [|? ? S' H]; subst. inversion H; subst. split; assumption.
Qed.

Lemma increasing_iff (l : list Qc) :
  forallb (Qcltb (Q2Qc 0)) (pairwise_diff l) = true <-> StronglySorted Qclt l.
Proof.
  rewrite diff_positive_sorted. split.
  - apply Sorted_StronglySorted, Qclt_transitive.
  - apply StronglySorted_Sorted.
Qed.

Lemma StronglySorted_shift (f : Qc -> Qc) (l : list Qc) :
  (forall a b, (a < b)%Qc <-> (f a < f b)%Qc) ->
  StronglySorted Qclt (map f l) <-> StronglySorted Qclt l.
Proof.
  intro Hf. induction l as [|a l IH]; simpl.
  - split; constructor.
  - split; intro S; inversion S as [|? ? S' H]; subst; constructor.
    + apply IH, S'.
    + rewrite Forall_forall in *. intros b Hb. apply <- Hf. apply H, in_map, Hb.
    + apply IH, S'.
    + rewrite Forall_forall in *. intros b Hb. apply in_map_iff in Hb.
      destruct Hb as [c [<- Hc]]. apply -> Hf. apply H, Hc.
Qed.

Lemma StronglySorted_NoDup (l : list Qc) : StronglySorted Qclt l -> NoDup l.
Proof.
  induction 1 as [|a l S IH H]; constructor; [|exact IH].
  intro In. rewrite Forall_forall in H. apply H in In.
  exact (Qclt_not_le _ _ In (Qcle_refl a)).
Qed.

Lemma StronglySorted_nth_lt (l : list Qc) (i j : nat) (a b : Qc) :
  StronglySorted Qclt l -> (i < j)%nat ->
  nth_error l i = Some a -> nth_error l j = Some b -> (a < b)%Qc.
Proof.
  intro S. revert i j. induction S as [|c l S IH H]; intros i j Hij Ha Hb.
  - destruct i; discriminate.
  - destruct j as [|j]; [lia|]. destruct i as [|i]; simpl in *.
    + injection Ha as <-. rewrite Forall_forall in H. apply H.
      eapply nth_error_In, Hb.
    + apply (IH i j); [lia | assumption | assumption].
Qed.

(** ** Parsing *)

Lemma float_as_literal (s : string) (y : Qc) :
  float s = Ok y <-> float_literal (strip s) = Some y.
Proof.
  unfold float, of_option. destruct (float_literal (strip s)); split; congruence.
Qed.

Section Header_stage.
Context {TL : TimeLib}.

Lemma read_header_ok (text : string) :
  header_ok text = true <-> exists ye, read_header text = Ok ye.
Proof.
  unfold header_ok, read_header, getitem, float, of_option.
  destruct (split (header2_of text)) as [|token rest]; simpl.
  - split; [discriminate | intros [ye H]; discriminate].
  - destruct (float_literal (strip token)) as [y|]; simpl.
    + destruct (Time_isot_utc (epoch_isot y)) as [e|]; simpl.
      * split; [eauto | reflexivity].
      * split; [discriminate | intros [ye H]; discriminate].
    + split; [discriminate | intros [ye H]; discriminate].
Qed.


End Header_stage.





Lemma read_data_length (lines : list string) (X : list row) :
  read_data lines = Ok X ->
  List.length X = List.length (filter has_field (map split_line lines)).
Proof.
  revert X. induction lines as [|l ls IH]; simpl; intros X.
  - intros [= <-]. reflexivity.
  - destruct (split_line l) as [|v vals] eqn:E; simpl; [apply IH|].
    destruct (read_row (v :: vals)) as [r|]; [|discriminate]. simpl.
    destruct (read_data ls) as [rs|]; [|discriminate]. simpl.
    intros [= <-]. simpl. f_equal. apply IH. reflexivity.
Qed.


Lemma read_rows_length (text : string) (X : list row) :
  read_rows text = Ok X -> List.length X = List.length (data_lines text).
Proof. apply read_data_length. Qed.

Lemma map_combine_same {A B C D : Type} (f : A -> B) (g : A -> C) (h : B * C -> D)
    (l : list A) :
  map h (combine (map f l) (map g l)) = map (fun a => h (f a, g a)) l.
Proof.
  induction l as [|a l IH]; simpl; [reflexivity | now rewrite IH].
Qed.

Section Constructor_stages.
Context {TL : TimeLib} {FL : FrameLib} {V : Values}.

(** The constructor, stage by stage. *)

Lemma init_no_file (fs : filesystem) (name : string) :
  fs name = None -> __init__ Python2 fs name = Raise IOError_no_such_file.
Proof. intro H. unfold __init__, file. rewrite H. reflexivity. Qed.

Lemma init_header_raises (fs : filesystem) (name text : string) (e : exn) :
  fs name = Some text -> read_header text = Raise e ->
  __init__ Python2 fs name = Raise e.
Proof.
  intros Hfs. unfold __init__, file, read_header, header2_of. rewrite Hfs.
  cbn [of_option bind].
  destruct (readline text) as [l1 f1]. cbn [fst snd].
  destruct (readline f1) as [l2 f2]. cbn [fst snd].
  destruct (getitem IndexError_header (split (strip l2)) 0) as [token|e0];
    cbn [bind]; [|congruence].
  destruct (float token) as [y|e0]; cbn [bind]; [|congruence].
  destruct (Time_isot_utc (epoch_isot y)); cbn [of_option bind]; congruence.
Qed.

Lemma init_rows_raise (fs : filesystem) (name text : string) (ye : Qc * Qc) (e : exn) :
  fs name = Some text -> read_header text = Ok ye -> read_rows text = Raise e ->
  __init__ Python2 fs name = Raise e.
Proof.
  intros Hfs. unfold __init__, file, read_header, read_rows, header2_of, body_of, loadtxt.
  rewrite Hfs. cbn [of_option bind].
  destruct (readline text) as [l1 f1]. cbn [fst snd].
  destruct (readline f1) as [l2 f2]. cbn [fst snd].
  destruct (getitem IndexError_header (split (strip l2)) 0) as [token|e0];
    cbn [bind]; [|congruence].
  destruct (float token) as [y|e0]; cbn [bind]; [|congruence].
  destruct (Time_isot_utc (epoch_isot y)); cbn [of_option bind]; [|congruence].
  intros _ ->. reflexivity.
Qed.

Lemma init_parsed (fs : filesystem) (name text : string) (year epoch : Qc)
    (X : list row) :
  fs name = Some text -> read_header text = Ok (year, epoch) ->
  read_rows text = Ok X ->
  __init__ Python2 fs name =
    match X with
    | [] => Raise IndexError_no_columns
    | [_] => Raise ValueError_diff_0d
    | _ =>
        if negb (forallb (Qcltb (Q2Qc 0))
                   (pairwise_diff (map (fun r => (c0 r + epoch - MET0)%Qc) X)))
        then Raise ValueError_not_increasing
        else if Nat.leb (List.length X) k then Raise Fitpack_m_le_k
        else Ok (instance_of year epoch X)
    end.
Proof.
  intros Hfs. unfold __init__, file, read_header, read_rows, header2_of, body_of, loadtxt.
  rewrite Hfs. cbn [of_option bind].
  destruct (readline text) as [l1 f1]. cbn [fst snd].
  destruct (readline f1) as [l2 f2]. cbn [fst snd].
  destruct (getitem IndexError_header (split (strip l2)) 0) as [token|e0];
    cbn [bind]; [|congruence].
  destruct (float token) as [y|e0]; cbn [bind]; [|congruence].
  destruct (Time_isot_utc (epoch_isot y)) as [ep|]; cbn [of_option bind]; [|congruence].
  intros [= -> ->] ->. cbn [bind].
  destruct X as [|r1 [|r2 X]]; [reflexivity | reflexivity |].
  set (XX := r1 :: r2 :: X).
  cbn [getitem nth_error of_option bind nd_map].
  rewrite !map_map.
  unfold InterpolatedUnivariateSpline. cbn [diff bind tolist].
  rewrite !length_map.
  destruct (negb (forallb (Qcltb (Q2Qc 0))
              (pairwise_diff (map (fun r => (c0 r + epoch - MET0)%Qc) XX))));
    [reflexivity|].
  destruct (Nat.leb (List.length XX) k); [reflexivity|].
  cbn [bind]. unfold instance_of, CartesianRepresentation.
  cbn [nd_map2 nd_map]. f_equal.
  rewrite !map_map.
  f_equal.
  all: rewrite ?map_map, ?map_combine_same; cbn [fst snd]; try reflexivity.
Qed.

End Constructor_stages.

Section Constructor_inversion.
Context {TL : TimeLib} {FL : FrameLib} {V : Values}.

Lemma init_inv (fs : filesystem) (name : string) (self : MCC) :
  __init__ Python2 fs name = Ok self ->
  exists text year epoch X,
    fs name = Some text /\
    read_header text = Ok (year, epoch) /\
    read_rows text = Ok X /\
    (3 < List.length X)%nat /\
    StronglySorted Qclt (map (fun r => (c0 r + epoch - MET0)%Qc) X) /\
    self = instance_of year epoch X.
Proof.
  intro H.
  destruct (fs name) as [text|] eqn:Hfs;
    [|rewrite (init_no_file fs name Hfs) in H; discriminate].
  destruct (read_header text) as [[year epoch]|e] eqn:Hh;
    [|rewrite (init_header_raises fs name Hfs Hh) in H; discriminate].
  destruct (read_rows text) as [X|e] eqn:Hr;
    [|rewrite (init_rows_raise fs name Hfs Hh Hr) in H; discriminate].
  rewrite (init_parsed fs name Hfs Hh Hr) in H.
  exists text, year, epoch, X.
  destruct X as [|r1 [|r2 X]]; try discriminate.
  destruct (forallb _ _) eqn:Hs; [|discriminate]. cbn [negb] in H.
  destruct (Nat.leb _ _) eqn:Hl; [discriminate|].
  apply Nat.leb_gt in Hl. apply increasing_iff in Hs.
  injection H as <-. repeat split; assumption.
Qed.

Lemma init_ok (fs : filesystem) (name text : string) (year epoch : Qc) (X : list row) :
  fs name = Some text ->
  read_header text = Ok (year, epoch) ->
  read_rows text = Ok X ->
  (3 < List.length X)%nat ->
  StronglySorted Qclt (map (fun r => (c0 r + epoch - MET0)%Qc) X) ->
  __init__ Python2 fs name = Ok (instance_of year epoch X).
Proof.
  intros Hfs Hh Hr Hl Hs. rewrite (init_parsed fs name Hfs Hh Hr).
  destruct X as [|r1 [|r2 X]]; [simpl in Hl; lia | simpl in Hl; lia |].
  apply increasing_iff in Hs. rewrite Hs. cbn [negb].
  apply Nat.leb_gt in Hl. unfold k. rewrite Hl. reflexivity.
Qed.

End Constructor_inversion.

(** ** The ends of a strictly increasing list *)

Lemma Qcmin_head (a : Qc) (l : list Qc) :
  Forall (Qclt a) l -> fold_left Qcmin l a = a.
Proof.
  induction 1 as [|b l Hb H IH]; simpl; [reflexivity|].
  apply Qclt_le_weak, Qcleb_le in Hb.
  replace (Qcmin a b) with a by (unfold Qcmin; rewrite Hb; reflexivity).
  exact IH.
Qed.

Lemma Qcmax_last (l : list Qc) (a d : Qc) :
  StronglySorted Qclt (a :: l) -> fold_left Qcmax l a = last (a :: l) d.
Proof.
  revert a. induction l as [|b l IH]; intros a S; [reflexivity|].
  inversion S as [|? ? S' H]; subst. inversion H as [|? ? Hb H']; subst.
  change (fold_left Qcmax (b :: l) a) with (fold_left Qcmax l (Qcmax a b)).
  apply Qclt_le_weak, Qcleb_le in Hb.
  replace (Qcmax a b) with b by (unfold Qcmax; rewrite Hb; reflexivity).
  rewrite (IH b S'). reflexivity.
Qed.

Lemma last_nth_error (l : list Qc) (a d : Qc) :
  nth_error (a :: l) (List.length l) = Some (last (a :: l) d).
Proof.
  revert a. induction l as [|b l IH]; intro a; [reflexivity|].
  change (nth_error (b :: l) (List.length l) = Some (last (b :: l) d)). apply IH.
Qed.

Lemma sorted_bounds (l : list Qc) (i : nat) (x : Qc) (d : Qc) :
  StronglySorted Qclt l -> nth_error l i = Some x ->
  (hd d l <= x)%Qc /\ (x <= last l d)%Qc.
Proof.
  intros Hs Hx. destruct l as [|a l]; [destruct i; discriminate|]. split.
  - cbn [hd]. destruct i as [|i].
    + injection Hx as <-. apply Qcle_refl.
    + apply Qclt_le_weak.
      apply (StronglySorted_nth_lt (i := 0) (j := S i) Hs); [lia | reflexivity | exact Hx].
  - pose proof (last_nth_error l a d) as Hl.
    destruct (Nat.eq_dec i (List.length l)) as [->|Hne].
    + replace (last (a :: l) d) with x by congruence. apply Qcle_refl.
    + apply Qclt_le_weak.
      apply (StronglySorted_nth_lt (i := i) (j := List.length l) Hs); [|exact Hx|exact Hl].
      assert (i < List.length (a :: l))%nat by (apply nth_error_Some; congruence).
      simpl in *. lia.
Qed.

(** ** The interpolating polynomial takes the data values *)

Lemma Qceqb_eq (a b : Qc) : Qceqb a b = true <-> a = b.
Proof.
  unfold Qceqb. rewrite Qceq_alt. destruct (a ?= b)%Qc; split; congruence.
Qed.

Lemma basis_at_node (nodes : list Qc) (xi : Qc) : basis nodes xi xi = Q2Qc 1.
Proof.
  induction nodes as [|xj nodes IH]; simpl; [reflexivity|].
  destruct (Qceqb xj xi) eqn:E; [exact IH|]. rewrite IH.
  assert (xi <> xj) by (intros ->; rewrite (proj2 (Qceqb_eq xj xj) eq_refl) in E; discriminate).
  field. intro Z. apply H. 
  transitivity (xi - xj + xj)%Qc; [ring | rewrite Z; ring].
Qed.

Lemma basis_at_other (nodes : list Qc) (xi xk : Qc) :
  In xk nodes -> xk <> xi -> basis nodes xi xk = Q2Qc 0.
Proof.
  intros Hin Hne. induction nodes as [|xj nodes IH]; [destruct Hin|].
  simpl. destruct (Qceqb xj xi) eqn:E.
  - apply Qceqb_eq in E. subst xj. destruct Hin as [->|Hin]; [congruence | auto].
  - destruct Hin as [->|Hin].
    + unfold Qcdiv. ring.
    + rewrite (IH Hin). ring.
Qed.

Lemma lagrange_sum_absent (nodes xs ys : list Qc) (xk : Qc) :
  In xk nodes -> ~ In xk xs -> lagrange_sum nodes xs ys xk = Q2Qc 0.
Proof.
  intros Hn. revert ys. induction xs as [|xi xs IH]; intros ys Hx; [reflexivity|].
  destruct ys as [|yi ys]; [reflexivity|]. simpl.
  rewrite basis_at_other; [|exact Hn | intros ->; apply Hx; left; reflexivity].
  rewrite IH; [ring | intro; apply Hx; right; assumption].
Qed.

Lemma lagrange_sum_node (nodes xs ys : list Qc) (i : nat) (x y : Qc) :
  NoDup xs -> (forall a, In a xs -> In a nodes) ->
  nth_error xs i = Some x -> nth_error ys i = Some y ->
  lagrange_sum nodes xs ys x = y.
Proof.
  revert ys i. induction xs as [|xi xs IH]; intros ys i ND Sub Hx Hy;
    [destruct i; discriminate|].
  destruct ys as [|yi ys]; [destruct i; discriminate|].
  inversion ND as [|? ? Hni ND']; subst. simpl.
  destruct i as [|i]; simpl in Hx, Hy.
  - injection Hx as ->. injection Hy as ->.
    rewrite basis_at_node, lagrange_sum_absent; [ring | apply Sub; left; reflexivity | exact Hni].
  - rewrite basis_at_other.
    + rewrite (IH ys i ND'); [ring | intros a Ha; apply Sub; right; exact Ha | exact Hx | exact Hy].
    + apply Sub. right. eapply nth_error_In, Hx.
    + intros ->. apply Hni. eapply nth_error_In, Hx.
Qed.

Lemma lagrange_interpolating : interpolating lagrange.
Proof.
  intros xs ys i x y S _ _ Hx Hy. simpl.
  eapply lagrange_sum_node; eauto using StronglySorted_NoDup.
Qed.

Lemma foot_is_0_3048 : foot = Q2Qc 0.3048.
Proof. apply Qc_is_canon. reflexivity. Qed.

(** ** Calling a spline in mode [ext="raise"] *)

Section Calls.
Context {SK : SplineKernel}.

Lemma call_inside (s : spline) (u : Qc) :
  (xb s <= u)%Qc -> (u <= xe s)%Qc ->
  call s u = Ok (splev (sp_x s) (sp_y s) u).
Proof.
  intros Hb He. unfold call.
  rewrite (proj2 (Qcltb_false u (xb s)) Hb), (proj2 (Qcltb_false (xe s) u) He).
  reflexivity.
Qed.

Lemma call_outside (s : spline) (u : Qc) :
  sp_ext s = ext_raise -> (u < xb s)%Qc \/ (xe s < u)%Qc ->
  call s u = Raise ValueError_out_of_domain.
Proof.
  intros Hm [H|H]; unfold call; rewrite Hm.
  - rewrite (proj2 (Qcltb_lt u (xb s)) H). reflexivity.
  - rewrite (proj2 (Qcltb_lt (xe s) u) H). destruct (Qcltb u (xb s)); reflexivity.
Qed.

End Calls.

Section Queries.
Context {SK : SplineKernel} {FL : FrameLib} {V : Values}.

Variables (year epoch : Qc) (X : list row).

Local Abbreviation M := (fun r : row => (c0 r + epoch - MET0)%Qc).
Local Abbreviation self := (instance_of year epoch X).

Lemma samples_instance :
  samples self
  = map (fun r => ((c0 r + epoch - MET0)%Qc,
                   ((c1 r * foot)%Qc, (c2 r * foot)%Qc, (c3 r * foot)%Qc))) X.
Proof.
  unfold samples, instance_of. cbn [met eci_x eci_y eci_z tolist].
  induction X as [|r l IH]; simpl; [reflexivity | now rewrite IH].
Qed.

Lemma t_min_instance :
  StronglySorted Qclt (map M X) -> t_min self = hd (Q2Qc 0) (map M X).
Proof.
  unfold t_min, instance_of. cbn [met tolist].
  destruct (map M X) as [|a l]; [reflexivity|].
  intro S. inversion S; subst. apply Qcmin_head. assumption.
Qed.

Lemma t_max_instance :
  StronglySorted Qclt (map M X) -> t_max self = last (map M X) (Q2Qc 0).
Proof.
  unfold t_max, instance_of. cbn [met tolist].
  destruct (map M X) as [|a l]; [reflexivity|].
  intro S. apply Qcmax_last. assumption.
Qed.

Lemma latlon_inside (u : Qc) :
  (hd (Q2Qc 0) (map M X) <= u)%Qc -> (u <= last (map M X) (Q2Qc 0))%Qc ->
  latlon u self =
    (Ok (geodetic_of
           (splev (map M X) (map (fun r => (c1 r * foot)%Qc) X) u,
            splev (map M X) (map (fun r => (c2 r * foot)%Qc) X) u,
            splev (map M X) (map (fun r => (c3 r * foot)%Qc) X) u)
           (MET0 + u)%Qc), self).
Proof.
  intros Hb He. unfold latlon, mbind, getattr, lift, mret.
  unfold instance_of. cbn [eci_x_interp eci_y_interp eci_z_interp].
  rewrite !call_inside by assumption. reflexivity.
Qed.

Lemma latlon_outside (u : Qc) :
  (u < hd (Q2Qc 0) (map M X))%Qc \/ (last (map M X) (Q2Qc 0) < u)%Qc ->
  latlon u self = (Raise ValueError_out_of_domain, self).
Proof.
  intros H. unfold latlon, mbind, getattr, lift, mret.
  unfold instance_of. cbn [eci_x_interp eci_y_interp eci_z_interp].
  rewrite call_outside; [reflexivity | reflexivity | exact H].
Qed.

End Queries.

Lemma StronglySorted_nondecreasing (l : list Qc) :
  StronglySorted Qclt l -> nondecreasing l.
Proof.
  intros Hs i a b Ha Hb. apply Qclt_le_weak.
  apply (StronglySorted_nth_lt (i := i) (j := S i) Hs); [lia | exact Ha | exact Hb].
Qed.

Lemma nondecreasing_NoDup_sorted (l : list Qc) :
  nondecreasing l -> NoDup l -> StronglySorted Qclt l.
Proof.
  intros Hn Hd. apply Sorted_StronglySorted; [exact Qclt_transitive|].
  induction l as [|a l IH]; [constructor|].
  inversion Hd as [|? ? Hni Hd']; subst. constructor.
  - apply IH; [|exact Hd'].
    intros i x y Hx Hy. apply (Hn (S i) x y); assumption.
  - destruct l as [|b l]; constructor.
    destruct (Qcle_lt_or_eq a b (Hn 0%nat a b eq_refl eq_refl)) as [L|E]; [exact L|].
    exfalso. apply Hni. left. symmetry. exact E.
Qed.


Lemma shift_monotone (c : Qc) (a b : Qc) : (a < b)%Qc <-> (a + c < b + c)%Qc.
Proof.
  rewrite (Qclt_minus_iff a b), (Qclt_minus_iff (a + c) (b + c)).
  replace (b + c + - (a + c))%Qc with (b + - a)%Qc by ring. reflexivity.
Qed.

Lemma offsets_sorted (epoch m0 : Qc) (X : list row) :
  StronglySorted Qclt (map (fun r => (c0 r + epoch - m0)%Qc) X) <->
  StronglySorted Qclt (map c0 X).
Proof.
  rewrite <- (StronglySorted_shift (fun a => (a + (epoch - m0))%Qc) (map c0 X)).
  - rewrite map_map.
    replace (map (fun r => (c0 r + epoch - m0)%Qc) X)
      with (map (fun x => (c0 x + (epoch - m0))%Qc) X); [reflexivity|].
    apply map_ext. intro r. ring.
  - intros a b. apply shift_monotone.
Qed.

Section Header_inversion.
Context {TL : TimeLib}.

Lemma read_header_inv (text : string) (year epoch : Qc) :
  read_header text = Ok (year, epoch) ->
  exists token,
    nth_error (split (header2_of text)) 0 = Some token /\
    float token = Ok year /\
    Time_isot_utc (epoch_isot year) = Some epoch.
Proof.
  unfold read_header, getitem, of_option.
  destruct (nth_error (split (header2_of text)) 0) as [token|] eqn:Ht; [|discriminate].
  cbn [bind]. destruct (float token) as [y|] eqn:Hy; [|discriminate].
  cbn [bind]. destruct (Time_isot_utc (epoch_isot y)) as [e|] eqn:He; [|discriminate].
  cbn [bind]. intros [= <- <-]. exists token. auto.
Qed.

End Header_inversion.

Section Failure_causes.
Context {TL : TimeLib} {FL : FrameLib} {V : Values}.




End Failure_causes.

End Facts.

(* ================================================================== *)
(** * Facts about years and about the causes of a failure *)
(* ================================================================== *)

Module ReadingFacts.
Import Py Numpy Scipy Astropy Values Mcc Spec Reference More Facts.

Local Open Scope string_scope.

(** ** Four-digit years *)

Lemma is_digit_chars (c : ascii) : is_digit c = true -> In c digit_chars.
Proof.
  destruct c as [[] [] [] [] [] [] [] []]; vm_compute; intro H;
    try discriminate H; tauto.
Qed.

Lemma year_token_listed (s : string) : year_token s = true -> In s year_tokens.
Proof.
  destruct s as [|a [|b [|c [|d [|? ?]]]]]; try discriminate.
  unfold year_token. rewrite !andb_true_iff.
  intros [[[[Ha Hz] Hb] Hc] Hd].
  apply is_digit_chars in Ha, Hb, Hc, Hd.
  unfold year_tokens.
  apply in_flat_map. exists a. split.
  - destruct Ha as [<-|Ha]; [discriminate Hz | exact Ha].
  - apply in_flat_map. exists b. split; [exact Hb|].
    apply in_flat_map. exists c. split; [exact Hc|].
    apply (in_map (fun d0 => String a (String b (String c (String d0 EmptyString))))).
    exact Hd.
Qed.

Lemma year_tokens_read : forallb reads_as_year year_tokens = true.
Proof. vm_compute. reflexivity. Qed.

Lemma year_token_reads (token : string) :
  year_token token = true ->
  exists y, float_literal (strip token) = Some y /\
            epoch_isot y = token ++ "-01-01T00:00:00".
Proof.
  intro H. apply year_token_listed in H.
  pose proof (proj1 (forallb_forall _ _) year_tokens_read token H) as R.
  unfold reads_as_year in R.
  destruct (float_literal (strip token)) as [y|]; [|discriminate].
  exists y. split; [reflexivity|]. apply String.eqb_eq. exact R.
Qed.

Section Year_header.
Context {TL : TimeLib}.

Lemma read_header_year_token (text token : string) :
  nth_error (split (header2_of text)) 0 = Some token ->
  year_token token = true ->
  exists y,
    float token = Ok y /\
    read_header text =
      match Time_isot_utc (token ++ "-01-01T00:00:00") with
      | Some epoch => Ok (y, epoch)
      | None => Raise ValueError_time_format
      end.
Proof.
  intros Ht Hy. destruct (year_token_reads _ Hy) as (y & Hf & He).
  exists y. unfold read_header, getitem, float. rewrite Ht. cbn [of_option bind].
  rewrite Hf. cbn [of_option bind]. rewrite He. split; [reflexivity|].
  destruct (Time_isot_utc _); reflexivity.
Qed.

End Year_header.


Section Causes.
Context {TL : TimeLib} {FL : FrameLib} {V : Values}.






End Causes.

End ReadingFacts.

(* ================================================================== *)
(** * The properties of the specification *)
(* ================================================================== *)

Import Py Numpy Scipy Astropy Values Mcc Spec Reference Facts ReadingFacts.

Section Properties.
Context {TL : TimeLib} {SK : SplineKernel} {FL : FrameLib} {V : Values}.

(** C2.  Range rejection.  On a loaded table every query strictly below
    [t_min] or strictly above [t_max] raises the out-of-range error and
    returns no position; the queries at [t_min] and at [t_max] succeed; and
    the instance a failed query hands back is the instance itself, on which
    any in-range query succeeds. *)
Theorem latlon_range (fs : filesystem) (mccname : string) (self : MCC) :
  __init__ Python2 fs mccname = Ok self ->
  (forall u : Qc, (u < t_min self)%Qc \/ (t_max self < u)%Qc ->
     latlon u self = (Raise ValueError_out_of_domain, self) /\
     OutOfRangeError ValueError_out_of_domain = true) /\
  (exists r, fst (latlon (t_min self) self) = Ok r) /\
  (exists r, fst (latlon (t_max self) self) = Ok r) /\
  (forall u v : Qc, (u < t_min self)%Qc \/ (t_max self < u)%Qc ->
     (t_min self <= v)%Qc -> (v <= t_max self)%Qc ->
     exists r, fst (latlon v (snd (latlon u self))) = Ok r).
Proof.
  intros H.
  destruct (init_inv _ _ H) as (text & year & epoch & X & _ & _ & _ & Hl & Hs & ->).
  rewrite (t_min_instance year epoch X Hs), (t_max_instance year epoch X Hs).
  set (ts := map (fun r => (c0 r + epoch - MET0)%Qc) X) in *.
  assert (Hends : (hd (Q2Qc 0) ts <= last ts (Q2Qc 0))%Qc).
  { destruct (nth_error ts 0) as [a|] eqn:Ha.
    - destruct (@sorted_bounds ts 0%nat a (Q2Qc 0) Hs Ha) as [_ Hle].
      destruct ts; [discriminate|]. injection Ha as ->. exact Hle.
    - apply nth_error_None in Ha. unfold ts in Ha. rewrite length_map in Ha. lia. }
  assert (Hout : forall u, (u < hd (Q2Qc 0) ts)%Qc \/ (last ts (Q2Qc 0) < u)%Qc ->
            latlon u (instance_of year epoch X)
            = (Raise ValueError_out_of_domain, instance_of year epoch X)).
  { intros u Hu. apply latlon_outside. exact Hu. }
  repeat split.
  - apply Hout. assumption.
  - eexists. rewrite latlon_inside; [reflexivity | apply Qcle_refl | exact Hends].
  - eexists. rewrite latlon_inside; [reflexivity | exact Hends | apply Qcle_refl].
  - intros u v Hu Hb He. rewrite (Hout u Hu). cbn [snd].
    eexists. rewrite latlon_inside; [reflexivity | exact Hb | exact He].
Qed.

(** C5.  The absolute instant.  For an in-range query time [u] the three
    splines give a position [(x, y, z)], and the result is the latitude and
    longitude of the transform of that position, given the observation time
    [MET0 + u], to the Earth-fixed frame of observation time [MET0 + u]:
    both frames receive the absolute instant, whatever the frame library
    is. *)
Theorem latlon_absolute_instant (fs : filesystem) (mccname : string)
    (self : MCC) (u : Qc) :
  __init__ Python2 fs mccname = Ok self ->
  (t_min self <= u)%Qc -> (u <= t_max self)%Qc ->
  exists x y z : Qc,
    call (eci_x_interp self) u = Ok x /\
    call (eci_y_interp self) u = Ok y /\
    call (eci_z_interp self) u = Ok z /\
    fst (latlon u self) =
      Ok (let ecef :=
            transform_to {| gcrs_cart := (x, y, z); gcrs_obstime := (MET0 + u)%Qc |}
                         {| itrs_obstime := (MET0 + u)%Qc |} in
          (earth_location_lat ecef, earth_location_lon ecef)).
Proof.
  intros H Hb He.
  destruct (init_inv _ _ H) as (text & year & epoch & X & _ & _ & _ & _ & Hs & ->).
  rewrite t_min_instance in Hb by exact Hs.
  rewrite t_max_instance in He by exact Hs.
  rewrite (latlon_inside year _ _ Hb He).
  do 3 eexists. unfold instance_of. cbn [eci_x_interp eci_y_interp eci_z_interp].
  rewrite !call_inside by assumption.
  repeat split.
Qed.



(** C8.  Monotonic time.  The time offsets of a loaded table never
    decrease from one sample to the next and hold no duplicate; and a file
    whose rows parse but whose raw offsets break that order is rejected. *)
Theorem met_strictly_increasing (fs : filesystem) (mccname : string) :
  (forall self : MCC,
     __init__ Python2 fs mccname = Ok self ->
     exists ts, met self = Array1 ts /\ nondecreasing ts /\ NoDup ts) /\
  (forall (text : string) (ye : Qc * Qc) (X : list row),
     fs mccname = Some text ->
     read_header text = Ok ye ->
     read_rows text = Ok X ->
     ~ (nondecreasing (map c0 X) /\ NoDup (map c0 X)) ->
     exists e, __init__ Python2 fs mccname = Raise e).
Proof.
  split.
  - intros self H.
    destruct (init_inv _ _ H) as (text & year & epoch & X & _ & _ & _ & _ & Hs & ->).
    eexists. split; [reflexivity|].
    split; [apply StronglySorted_nondecreasing | apply StronglySorted_NoDup]; exact Hs.
  - intros text ye X Hfs Hh Hr Hbad.
    destruct (__init__ Python2 fs mccname) as [self|e] eqn:H; [exfalso | eauto].
    destruct (init_inv _ _ H) as (text' & year & epoch & X' & Hfs' & _ & Hr' & _ & Hs & _).
    assert (text' = text) by congruence. subst text'.
    assert (X' = X) by congruence. subst X'.
    apply offsets_sorted in Hs. apply Hbad.
    split; [apply StronglySorted_nondecreasing | apply StronglySorted_NoDup]; exact Hs.
Qed.

(** C10.  Python 3.  Whatever the file system and the path, under Python 3
    the constructor raises [NameError] for the name [file], before any file
    is looked up; so no instance exists. *)
Theorem python3_raises_NameError (fs : filesystem) (mccname : string) :
  __init__ Python3 fs mccname = Raise NameError_file /\
  class_of NameError_file = NameError /\
  (forall self : MCC, __init__ Python3 fs mccname <> Ok self).
Proof.
  repeat split. intros self H. discriminate H.
Qed.

End Properties.

(* ================================================================== *)
(** * Sample runs *)
(* ================================================================== *)

Local Open Scope string_scope.

(** ** Running the model *)

Example float_literals :
  map (fun s => option_map this (float_literal s))
      ["2020"; "-1.5e3"; "1.25E-2"; ".5"; "5."; "."; "1e"; "nan"; "12ft"]
  = [Some (2020 # 1); Some (-1500 # 1); Some (1 # 80); Some (1 # 2);
     Some (5 # 1); None; None; None; None]%Q.
Proof. vm_compute. reflexivity. Qed.

Example epoch_isot_examples :
  map epoch_isot [Q2Qc 2020; Q2Qc 2020.5; Q2Qc 2021.5; Q2Qc 987; Q2Qc 12345]
  = ["2020-01-01T00:00:00"; "2020-01-01T00:00:00"; "2022-01-01T00:00:00";
     " 987-01-01T00:00:00"; "12345-01-01T00:00:00"].
Proof. vm_compute. reflexivity. Qed.

Example foot_in_metres : this foot = (381 # 1250)%Q.
Proof. vm_compute. reflexivity. Qed.

Example six_years_and_two_leap_seconds :
  this (jan1 2020 - jan1 2014)%Qc = (189302402 # 1)%Q.
Proof. vm_compute. reflexivity. Qed.

Example iss4_loads :
  match new Python2 "iss4.mcc" with
  | Ok self =>
      map this (tolist (met self))
      = [189302402 # 1; 189302462 # 1; 189302522 # 1; 189302582 # 1]%Q /\
      map this (tolist (eci_x self)) = [381 # 1250; 0 # 1; 0 # 1; 381 # 1250]%Q
  | Raise _ => False
  end.
Proof. vm_compute. split; reflexivity. Qed.

Example constructor_failures :
  new Python3 "iss4.mcc" = Raise NameError_file /\
  new Python2 "nowhere.mcc" = Raise IOError_no_such_file /\
  new Python2 "iss3.mcc" = Raise Fitpack_m_le_k /\
  new Python2 "unordered.mcc" = Raise ValueError_not_increasing.
Proof. repeat split; vm_compute; reflexivity. Qed.

Example parsing_failures :
  load ["title"] = Raise IndexError_header /\
  load ["title"; ""; "0 1 2 3"] = Raise IndexError_header /\
  load ["title"; "year 2020"; "0 1 2 3"] = Raise ValueError_float /\
  load ["title"; "12345"; "0 1 2 3"] = Raise ValueError_time_format /\
  load ["title"; "2020"; "0 1 2 3"; "60 1 2"] = Raise IndexError_usecols /\
  load ["title"; "2020"; "0 1 2 3"; "60 1 x 3"] = Raise ValueError_field.
Proof. repeat split; vm_compute; reflexivity. Qed.

Example sample_count_failures :
  load ["title"; "2020"] = Raise IndexError_no_columns /\
  load ["title"; "2020"; "0 1 2 3"] = Raise ValueError_diff_0d /\
  load ["title"; "2020"; "0 1 2 3"; "60 1 2 3"] = Raise Fitpack_m_le_k /\
  load ["title"; "2020"; "0 1 2 3"; "60 1 2 3"; "120 1 2 3"] = Raise Fitpack_m_le_k.
Proof. repeat split; vm_compute; reflexivity. Qed.

(** Rows out of order raise the same exception whether the file has three
    data lines or four. *)
Example unordered_rows_one_exception :
  List.length (data_lines unordered3) = 3%nat /\
  List.length (data_lines unordered) = 4%nat /\
  new Python2 "unordered3.mcc" = Raise ValueError_not_increasing /\
  new Python2 "unordered.mcc" = Raise ValueError_not_increasing.
Proof. repeat split; vm_compute; reflexivity. Qed.

(** ** The properties at the sample files *)

(** On [iss4.mcc]: one second outside either end raises, the ends answer,
    and the first sample still answers after a failed query. *)
Lemma latlon_range_witness :
  exists self : @MCC recorder,
    new Python2 "iss4.mcc" = Ok self /\
    query (t_min self - 1) self = (Raise ValueError_out_of_domain, self) /\
    query (t_max self + 1) self = (Raise ValueError_out_of_domain, self) /\
    (exists r, fst (query (t_min self) self) = Ok r) /\
    (exists r, fst (query (t_max self) self) = Ok r) /\
    (exists r, fst (query (t_min self) (snd (query (t_max self + 1) self))) = Ok r).
Proof.
  eexists. split; [vm_compute; reflexivity|].
  match goal with |- ?A /\ _ =>
    match A with context [t_min ?s] =>
      assert (H : new Python2 "iss4.mcc" = Ok s) by (vm_compute; reflexivity);
      destruct (@latlon_range calendar lagrange recorder met0_2014 disk "iss4.mcc" s H)
        as (Hout & Hmin & Hmax & Hnext)
    end
  end.
  split; [apply Hout; left; vm_compute; reflexivity|].
  split; [apply Hout; right; vm_compute; reflexivity|].
  split; [exact Hmin|]. split; [exact Hmax|].
  apply Hnext; [right; vm_compute; reflexivity | apply Qcle_refl | vm_compute; discriminate].
Defined.

(** On [iss4.mcc], ten seconds after the first sample: the recorded frames
    both carry [MET0 + u]. *)
Lemma latlon_absolute_instant_witness :
  exists self : @MCC recorder,
    new Python2 "iss4.mcc" = Ok self /\
    (t_min self <= t_min self + Q2Qc 10)%Qc /\
    (t_min self + Q2Qc 10 <= t_max self)%Qc /\
    exists x y z : Qc,
      @call lagrange (eci_x_interp self) (t_min self + Q2Qc 10) = Ok x /\
      @call lagrange (eci_y_interp self) (t_min self + Q2Qc 10) = Ok y /\
      @call lagrange (eci_z_interp self) (t_min self + Q2Qc 10) = Ok z /\
      fst (query (t_min self + Q2Qc 10) self) =
        Ok (Latitude {| gcrs_cart := (x, y, z);
                        gcrs_obstime := (@MET0 met0_2014 + (t_min self + Q2Qc 10))%Qc |}
                     {| itrs_obstime := (@MET0 met0_2014 + (t_min self + Q2Qc 10))%Qc |},
            Longitude {| gcrs_cart := (x, y, z);
                         gcrs_obstime := (@MET0 met0_2014 + (t_min self + Q2Qc 10))%Qc |}
                      {| itrs_obstime := (@MET0 met0_2014 + (t_min self + Q2Qc 10))%Qc |}).
Proof.
  eexists. split; [vm_compute; reflexivity|].
  split; [vm_compute; discriminate|]. split; [vm_compute; discriminate|].
  apply (@latlon_absolute_instant calendar lagrange recorder met0_2014 disk "iss4.mcc");
    [vm_compute; reflexivity | vm_compute; discriminate | vm_compute; discriminate].
Defined.





(** [iss4.mcc] loads with increasing offsets; [unordered.mcc] is rejected. *)
Lemma met_strictly_increasing_witness :
  (exists self : @MCC recorder,
     new Python2 "iss4.mcc" = Ok self /\
     exists ts, met self = Array1 ts /\ nondecreasing ts /\ NoDup ts) /\
  (exists X : list row,
     read_rows unordered = Ok X /\
     ~ (nondecreasing (map c0 X) /\ NoDup (map c0 X)) /\
     exists e, new Python2 "unordered.mcc" = Raise e).
Proof.
  split.
  - eexists. split; [vm_compute; reflexivity|].
    apply (proj1 (@met_strictly_increasing calendar recorder met0_2014 disk "iss4.mcc")).
    vm_compute; reflexivity.
  - eexists. split; [vm_compute; reflexivity|].
    match goal with |- ?B /\ _ => assert (Hbad : B) end.
    { intros [Hn _]. specialize (Hn 1%nat _ _ eq_refl eq_refl).
      vm_compute in Hn. apply Hn. reflexivity. }
    split; [exact Hbad|].
    destruct (@read_header calendar unordered) as [ye|] eqn:Hh; [|vm_compute in Hh; discriminate].
    eapply (proj2 (@met_strictly_increasing calendar recorder met0_2014 disk "unordered.mcc"));
      [reflexivity | exact Hh | vm_compute; reflexivity | exact Hbad].
Defined.

(* ================================================================== *)
(** * Further properties of the constructor and of the queries *)
(* ================================================================== *)

Module MoreFacts.
Import Py Numpy Scipy Astropy Values Mcc Spec Reference Facts More.

(** ** What the constructor reads of a file *)

Lemma read_row_firstn (vals : list string) :
  read_row vals = read_row (firstn 4 vals).
Proof.
  destruct vals as [|v0 [|v1 [|v2 [|v3 rest]]]]; reflexivity.
Qed.

Lemma read_data_fields (lines : list string) :
  read_data lines = traverse read_row (filter has_field (map split_line lines)).
Proof.
  induction lines as [|l ls IH]; [reflexivity|].
  cbn -[read_row]. destruct (split_line l) as [|v vals]; [exact IH|].
  cbn -[read_row]. rewrite IH. reflexivity.
Qed.

Lemma traverse_read_row_firstn (rows : list (list string)) :
  traverse read_row rows = traverse read_row (map (firstn 4) rows).
Proof.
  induction rows as [|r rows IH]; [reflexivity|].
  cbn -[read_row firstn]. rewrite <- read_row_firstn, IH. reflexivity.
Qed.

Lemma read_rows_fields (t1 t2 : string) :
  map (firstn 4) (data_lines t1) = map (firstn 4) (data_lines t2) ->
  read_rows t1 = read_rows t2.
Proof.
  intro H. unfold read_rows. rewrite !read_data_fields.
  fold (data_lines t1). fold (data_lines t2).
  rewrite (traverse_read_row_firstn (data_lines t1)), H.
  symmetry. apply traverse_read_row_firstn.
Qed.

Lemma readline_line (l rest : string) :
  no_newline l = true ->
  readline (String.append l (String newline rest))
  = (String.append l (String newline EmptyString), rest).
Proof.
  induction l as [|c l IH]; simpl; intro H.
  - reflexivity.
  - apply andb_true_iff in H. destruct H as [Hc Hl].
    apply negb_true_iff in Hc. rewrite Hc, (IH Hl). reflexivity.
Qed.

Lemma readline_last (l : string) :
  no_newline l = true -> readline l = (l, EmptyString).
Proof.
  induction l as [|c l IH]; simpl; intro H.
  - reflexivity.
  - apply andb_true_iff in H. destruct H as [Hc Hl].
    apply negb_true_iff in Hc. rewrite Hc, (IH Hl). reflexivity.
Qed.

Section Reading_stages.
Context {TL : TimeLib} {FL : FrameLib} {V : Values}.

Lemma read_header_token (t1 t2 : string) :
  nth_error (split (header2_of t1)) 0 = nth_error (split (header2_of t2)) 0 ->
  read_header t1 = read_header t2.
Proof. intro H. unfold read_header, getitem. rewrite H. reflexivity. Qed.

Lemma init_same_reading (rt : runtime) (fs1 fs2 : filesystem)
    (n1 n2 t1 t2 : string) :
  fs1 n1 = Some t1 -> fs2 n2 = Some t2 ->
  read_header t1 = read_header t2 ->
  read_rows t1 = read_rows t2 ->
  __init__ rt fs1 n1 = __init__ rt fs2 n2.
Proof.
  intros H1 H2 Hh Hr. destruct rt; [|reflexivity].
  destruct (read_header t2) as [[year epoch]|e] eqn:E2.
  - destruct (read_rows t2) as [X|e] eqn:R2.
    + rewrite (init_parsed fs1 n1 H1 Hh Hr), (init_parsed fs2 n2 H2 E2 R2).
      reflexivity.
    + rewrite (init_rows_raise fs1 n1 H1 Hh Hr), (init_rows_raise fs2 n2 H2 E2 R2).
      reflexivity.
  - rewrite (init_header_raises fs1 n1 H1 Hh), (init_header_raises fs2 n2 H2 E2).
    reflexivity.
Qed.

End Reading_stages.

(** ** Traversals *)

Lemma traverse_ok {A B : Type} (f : A -> result B) (l : list A) (bs : list B) :
  traverse f l = Ok bs <-> map f l = map Ok bs.
Proof.
  revert bs. induction l as [|a l IH]; intro bs; simpl.
  - destruct bs; simpl; split; intro H; try reflexivity; discriminate.
  - destruct (f a) as [b|e]; simpl.
    + destruct (traverse f l) as [bs'|e] eqn:T; simpl.
      * split.
        -- intros [= <-]. simpl. f_equal. apply IH. reflexivity.
        -- destruct bs as [|b0 bs0]; [discriminate|]. simpl. intros [= <- H].
           apply IH in H. injection H as <-. reflexivity.
      * split; [discriminate|].
        destruct bs as [|b0 bs0]; [discriminate|]. simpl. intros [= _ H].
        apply IH in H. discriminate.
    + split; [discriminate|]. destruct bs; discriminate.
Qed.

Lemma traverse_all_ok {A B : Type} (f : A -> result B) (l : list A) :
  (forall a, In a l -> exists b, f a = Ok b) ->
  exists bs, traverse f l = Ok bs.
Proof.
  induction l as [|a l IH]; intro H; simpl; [eauto|].
  destruct (H a (or_introl eq_refl)) as [b Hb]. rewrite Hb. simpl.
  destruct IH as [bs Hbs]; [intros; apply H; right; assumption|].
  rewrite Hbs. simpl. eauto.
Qed.

Lemma traverse_raises {A B : Type} (f : A -> result B) (l : list A) (e : exn) :
  traverse f l = Raise e -> exists a, In a l /\ f a = Raise e.
Proof.
  induction l as [|a l IH]; simpl; [discriminate|].
  destruct (f a) as [b|e'] eqn:Fa; simpl.
  - destruct (traverse f l) as [bs|e'']; simpl; [discriminate|].
    intros [= <-]. destruct (IH eq_refl) as (a' & Hin & Ha'). eauto.
  - intros [= <-]. eauto.
Qed.

Lemma traverse_one_raises {A B : Type} (f : A -> result B) (l : list A) (a : A) (e : exn) :
  In a l -> f a = Raise e -> exists e', traverse f l = Raise e'.
Proof.
  intros Hin Ha. destruct (traverse f l) as [bs|e'] eqn:T; [|eauto].
  exfalso. apply traverse_ok in T.
  apply (in_map f) in Hin. rewrite T, Ha in Hin.
  apply in_map_iff in Hin. destruct Hin as (b & Hb & _). discriminate.
Qed.

Section Array_query_facts.
Context {SK : SplineKernel} {FL : FrameLib} {V : Values}.

Lemma call_raises_domain (s : spline) (u : Qc) (e : exn) :
  call s u = Raise e -> e = ValueError_out_of_domain.
Proof.
  unfold call.
  destruct (Qcltb u (xb s)); [|destruct (Qcltb (xe s) u)];
    destruct (sp_ext s); congruence.
Qed.

Lemma latlon_ok_inv (self : MCC) (u : Qc) (r : angle * angle) :
  fst (latlon u self) = Ok r ->
  exists x y z,
    call (eci_x_interp self) u = Ok x /\
    call (eci_y_interp self) u = Ok y /\
    call (eci_z_interp self) u = Ok z /\
    r = geodetic_of (x, y, z) (MET0 + u)%Qc.
Proof.
  unfold latlon, mbind, getattr, lift, mret.
  destruct (call (eci_x_interp self) u) as [x|]; [|discriminate].
  destruct (call (eci_y_interp self) u) as [y|]; [|discriminate].
  destruct (call (eci_z_interp self) u) as [z|]; [|discriminate].
  cbn. intros [= <-]. exists x, y, z. repeat split.
Qed.

Lemma latlon_raise_inv (self : MCC) (u : Qc) (e : exn) :
  fst (latlon u self) = Raise e ->
  call (eci_x_interp self) u = Raise e \/
  call (eci_y_interp self) u = Raise e \/
  call (eci_z_interp self) u = Raise e.
Proof.
  unfold latlon, mbind, getattr, lift, mret.
  destruct (call (eci_x_interp self) u) as [x|]; [|cbn; intros [= <-]; auto].
  destruct (call (eci_y_interp self) u) as [y|]; [|cbn; intros [= <-]; auto].
  destruct (call (eci_z_interp self) u) as [z|]; [|cbn; intros [= <-]; auto].
  discriminate.
Qed.

Lemma latlon_nd_unchanged (self : MCC) (us : ndarray Qc) :
  snd (latlon_nd us self) = self.
Proof.
  unfold latlon_nd, mbind, getattr, lift, mret.
  destruct (call_nd (eci_x_interp self) us); [|reflexivity].
  destruct (call_nd (eci_y_interp self) us); [|reflexivity].
  destruct (call_nd (eci_z_interp self) us); reflexivity.
Qed.

Lemma geodetic_arrays (self : MCC) (us xs ys zs : list Qc) :
  map (call (eci_x_interp self)) us = map Ok xs ->
  map (call (eci_y_interp self)) us = map Ok ys ->
  map (call (eci_z_interp self)) us = map Ok zs ->
  let cart := CartesianRepresentation (Array1 xs) (Array1 ys) (Array1 zs) in
  let obstime := nd_map (fun m => (MET0 + m)%Qc) (Array1 us) in
  let ecef := nd_map2 transform_to (nd_map2 Build_GCRS cart obstime)
                                   (nd_map Build_ITRS obstime) in
  let la := tolist (nd_map earth_location_lat ecef) in
  let lo := tolist (nd_map earth_location_lon ecef) in
  map (fun u => fst (latlon u self)) us = map Ok (combine la lo) /\
  List.length la = List.length us /\ List.length lo = List.length us.
Proof.
  revert xs ys zs. induction us as [|u us IH]; intros xs ys zs Hx Hy Hz.
  - destruct xs; [|discriminate]. destruct ys; [|discriminate].
    destruct zs; [|discriminate]. repeat split.
  - destruct xs as [|x xs]; [discriminate|]. destruct ys as [|y ys]; [discriminate|].
    destruct zs as [|z zs]; [discriminate|].
    injection Hx as Hx Hxs. injection Hy as Hy Hys. injection Hz as Hz Hzs.
    destruct (IH xs ys zs Hxs Hys Hzs) as (Hm & Hla & Hlo).
    cbn in *. rewrite Hm. repeat split.
    + f_equal. unfold latlon, mbind, getattr, lift, mret. rewrite Hx, Hy, Hz. reflexivity.
    + f_equal. exact Hla.
    + f_equal. exact Hlo.
Qed.

End Array_query_facts.

End MoreFacts.

Import More MoreFacts.

Section Constructor_more.
Context {TL : TimeLib} {FL : FrameLib} {V : Values}.

(** X2.  Shapes.  In a loaded instance the arrays [t], [met], [eci_x],
    [eci_y], [eci_z], [lat] and [lon] are 1-d and all have as many elements
    as the file has data lines, at least four. *)
Theorem loaded_shapes (fs : filesystem) (mccname : string) (self : MCC) :
  __init__ Python2 fs mccname = Ok self ->
  exists (text : string) (n : nat),
    fs mccname = Some text /\
    n = List.length (data_lines text) /\
    (4 <= n)%nat /\
    vector_of_length n (t self) /\
    vector_of_length n (met self) /\
    vector_of_length n (eci_x self) /\
    vector_of_length n (eci_y self) /\
    vector_of_length n (eci_z self) /\
    vector_of_length n (lat self) /\
    vector_of_length n (lon self).
Proof.
  intro H.
  destruct (init_inv _ _ H) as (text & year & epoch & X & Hfs & _ & Hr & Hl & _ & ->).
  exists text, (List.length X).
  split; [exact Hfs|]. split; [apply (read_rows_length _ Hr)|]. split; [exact Hl|].
  unfold instance_of, vector_of_length; cbn.
  repeat split; eexists; (split; [reflexivity | apply length_map]).
Qed.

(** X12.  The epoch of a file.  When line 2 starts with a four-digit year
    [YYYY], a loaded instance has that number as [mcc_epoch_year] and the
    instant of [YYYY-01-01T00:00:00] UTC as [mcc_epoch]. *)
Theorem epoch_from_year_token (fs : filesystem) (mccname text token : string)
    (self : MCC) :
  __init__ Python2 fs mccname = Ok self ->
  fs mccname = Some text ->
  nth_error (split (header2_of text)) 0 = Some token ->
  year_token token = true ->
  float token = Ok (mcc_epoch_year self) /\
  Time_isot_utc (String.append token "-01-01T00:00:00") = Some (mcc_epoch self).
Proof.
  intros H Hfs Ht Hy.
  destruct (init_inv _ _ H) as (text' & year & epoch & X & Hfs' & Hh & _ & _ & _ & ->).
  assert (text' = text) by congruence. subst text'.
  destruct (read_header_year_token text Ht Hy) as (y & Hf & Hh').
  rewrite Hh in Hh'.
  destruct (Time_isot_utc (String.append token "-01-01T00:00:00")) as [ep|]; [|discriminate].
  injection Hh' as -> ->. unfold instance_of; cbn [mcc_epoch_year mcc_epoch].
  split; [exact Hf | reflexivity].
Qed.

(** X13.  The track computed by the constructor.  In a loaded instance the
    latitude and the longitude stored for sample [i] are those of the
    transform of the stored position [(eci_x[i], eci_y[i], eci_z[i])], given
    the observation time [t[i]], to the Earth-fixed frame of observation
    time [t[i]]: both frames receive the absolute time of the sample,
    whatever the frame library is. *)
Theorem loaded_track (fs : filesystem) (mccname : string) (self : MCC)
    (i : nat) (ti x y z : Qc) :
  __init__ Python2 fs mccname = Ok self ->
  nth_error (tolist (t self)) i = Some ti ->
  nth_error (tolist (eci_x self)) i = Some x ->
  nth_error (tolist (eci_y self)) i = Some y ->
  nth_error (tolist (eci_z self)) i = Some z ->
  let ecef := transform_to {| gcrs_cart := (x, y, z); gcrs_obstime := ti |}
                           {| itrs_obstime := ti |} in
  nth_error (tolist (lat self)) i = Some (earth_location_lat ecef) /\
  nth_error (tolist (lon self)) i = Some (earth_location_lon ecef).
Proof.
  intros H.
  destruct (init_inv _ _ H) as (text & year & epoch & X & _ & _ & _ & _ & _ & ->).
  unfold instance_of; cbn [t eci_x eci_y eci_z lat lon tolist].
  rewrite !nth_error_map.
  destruct (nth_error X i) as [r|]; [|discriminate].
  cbn [option_map]. intros [= <-] [= <-] [= <-] [= <-]. split; reflexivity.
Qed.

End Constructor_more.

Section Reading.
Context {TL : TimeLib} {FL : FrameLib} {V : Values}.

(** X7.  What the constructor reads of a file.  Two files with the same
    first token on line 2 and the same first four fields on each data line
    give the same outcome under either runtime: the title line, the rest of
    line 2, blank lines, comments, further columns and the path do not
    matter. *)
Theorem init_reads_only (rt : runtime) (fs1 fs2 : filesystem)
    (n1 n2 t1 t2 : string) :
  fs1 n1 = Some t1 -> fs2 n2 = Some t2 ->
  nth_error (split (header2_of t1)) 0 = nth_error (split (header2_of t2)) 0 ->
  map (firstn 4) (data_lines t1) = map (firstn 4) (data_lines t2) ->
  __init__ rt fs1 n1 = __init__ rt fs2 n2.
Proof.
  intros H1 H2 Hh Hr.
  apply (init_same_reading rt fs1 fs2 n1 n2 H1 H2).
  - apply read_header_token, Hh.
  - apply read_rows_fields, Hr.
Qed.

(** X8.  The title line is discarded.  Two files that differ only in their
    first line give the same outcome. *)
Theorem title_line_ignored (rt : runtime) (fs1 fs2 : filesystem)
    (n1 n2 title1 title2 rest : string) :
  no_newline title1 = true -> no_newline title2 = true ->
  fs1 n1 = Some (String.append title1 (String newline rest)) ->
  fs2 n2 = Some (String.append title2 (String newline rest)) ->
  __init__ rt fs1 n1 = __init__ rt fs2 n2.
Proof.
  intros N1 N2 H1 H2.
  apply (init_same_reading rt fs1 fs2 n1 n2 H1 H2).
  - unfold read_header, header2_of. rewrite !readline_line by assumption. reflexivity.
  - unfold read_rows, body_of. rewrite !readline_line by assumption. reflexivity.
Qed.

(** X9.  A file without a second line.  Under Python 2, an empty file or a
    file of a single line (with or without its newline) raises the
    [IndexError] of [header2.split()[0]]. *)
Theorem short_file_raises (fs : filesystem) (mccname line : string) :
  no_newline line = true ->
  fs mccname = Some line \/
  fs mccname = Some (String.append line (String newline EmptyString)) ->
  __init__ Python2 fs mccname = Raise IndexError_header.
Proof.
  intros N [H|H]; apply (init_header_raises fs mccname H);
    unfold read_header, header2_of.
  - rewrite (readline_last line N). reflexivity.
  - rewrite (readline_line line EmptyString N). reflexivity.
Qed.

End Reading.

Section Array_query_more.
Context {SK : SplineKernel} {FL : FrameLib} {V : Values}.

(** X11.  Array queries.  A query with an array of times leaves the
    instance unchanged.  When the query at each time succeeds it returns the
    latitudes and the longitudes of the queries one by one, in order; when
    the query at some time raises, the array query raises the range error
    and returns nothing. *)
Theorem latlon_nd_pointwise (self : MCC) (us : list Qc) :
  snd (latlon_nd (Array1 us) self) = self /\
  ((forall u, In u us -> exists r, fst (latlon u self) = Ok r) ->
   exists la lo : list angle,
     fst (latlon_nd (Array1 us) self) = Ok (Array1 la, Array1 lo) /\
     map (fun u => fst (latlon u self)) us = map Ok (combine la lo) /\
     List.length la = List.length us /\ List.length lo = List.length us) /\
  (forall (u : Qc) (e : exn),
     In u us -> fst (latlon u self) = Raise e ->
     fst (latlon_nd (Array1 us) self) = Raise ValueError_out_of_domain).
Proof.
  split; [apply latlon_nd_unchanged|]. split.
  - intro Hall.
    assert (Hc : forall f : MCC -> spline,
              (forall u r, fst (latlon u self) = Ok r -> exists v, call (f self) u = Ok v) ->
              exists vs, traverse (call (f self)) us = Ok vs).
    { intros f Hf. apply traverse_all_ok. intros u Hu.
      destruct (Hall u Hu) as [r Hr]. exact (Hf u r Hr). }
    destruct (Hc eci_x_interp) as [xs Hx].
    { intros u r Hr. destruct (latlon_ok_inv _ _ Hr) as (x & y & z & ? & ? & ? & _). eauto. }
    destruct (Hc eci_y_interp) as [ys Hy].
    { intros u r Hr. destruct (latlon_ok_inv _ _ Hr) as (x & y & z & ? & ? & ? & _). eauto. }
    destruct (Hc eci_z_interp) as [zs Hz].
    { intros u r Hr. destruct (latlon_ok_inv _ _ Hr) as (x & y & z & ? & ? & ? & _). eauto. }
    unfold latlon_nd, mbind, getattr, lift, mret, call_nd.
    rewrite Hx, Hy, Hz. cbn [bind fst].
    apply traverse_ok in Hx, Hy, Hz.
    destruct (@geodetic_arrays SK FL V self us xs ys zs Hx Hy Hz) as (Hm & Hla & Hlo).
    do 2 eexists. split; [reflexivity|]. repeat split; assumption.
  - intros u e Hu He.
    assert (Hd : forall (f : MCC -> spline) e',
              traverse (call (f self)) us = Raise e' -> e' = ValueError_out_of_domain).
    { intros f e' T. destruct (traverse_raises _ _ T) as (a & _ & Ha).
      exact (call_raises_domain _ _ Ha). }
    unfold latlon_nd, mbind, getattr, lift, mret, call_nd.
    destruct (traverse (call (eci_x_interp self)) us) as [xs|ex] eqn:Tx;
      [|cbn; f_equal; exact (Hd eci_x_interp _ Tx)].
    destruct (traverse (call (eci_y_interp self)) us) as [ys|ey] eqn:Ty;
      [|cbn; f_equal; exact (Hd eci_y_interp _ Ty)].
    destruct (traverse (call (eci_z_interp self)) us) as [zs|ez] eqn:Tz;
      [|cbn; f_equal; exact (Hd eci_z_interp _ Tz)].
    exfalso.
    destruct (latlon_raise_inv _ _ He) as [Hr|[Hr|Hr]].
    + destruct (@traverse_one_raises _ _ _ us u e Hu Hr) as [e' T]. congruence.
    + destruct (@traverse_one_raises _ _ _ us u e Hu Hr) as [e' T]. congruence.
    + destruct (@traverse_one_raises _ _ _ us u e Hu Hr) as [e' T]. congruence.
Qed.

End Array_query_more.

Local Open Scope string_scope.

(** ** The further properties at the sample files *)

Lemma loaded_shapes_witness :
  exists self : @MCC recorder,
    new Python2 "iss4.mcc" = Ok self /\
    exists (text : string) (n : nat),
      disk "iss4.mcc" = Some text /\
      n = List.length (data_lines text) /\
      (4 <= n)%nat /\
      vector_of_length n (t self) /\
      vector_of_length n (met self) /\
      vector_of_length n (eci_x self) /\
      vector_of_length n (eci_y self) /\
      vector_of_length n (eci_z self) /\
      vector_of_length n (lat self) /\
      vector_of_length n (lon self).
Proof.
  eexists. split; [vm_compute; reflexivity|].
  apply (@loaded_shapes calendar recorder met0_2014 disk "iss4.mcc").
  vm_compute; reflexivity.
Defined.

Lemma init_reads_only_witness :
  disk "iss4.mcc" = Some iss4 /\
  nth_error (split (header2_of iss4)) 0 = nth_error (split (header2_of plain4)) 0 /\
  map (firstn 4) (data_lines iss4) = map (firstn 4) (data_lines plain4) /\
  new Python2 "iss4.mcc"
  = @__init__ calendar recorder met0_2014 Python2 (fun _ => Some plain4) "plain4.mcc".
Proof.
  split; [reflexivity|]. split; [vm_compute; reflexivity|].
  split; [vm_compute; reflexivity|].
  apply (@init_reads_only calendar recorder met0_2014 Python2 disk
           (fun _ => Some plain4) "iss4.mcc" "plain4.mcc" iss4 plain4);
    [reflexivity | reflexivity | vm_compute; reflexivity | vm_compute; reflexivity].
Defined.

Lemma title_line_ignored_witness :
  no_newline "ISS ephemeris" = true /\
  no_newline "" = true /\
  load ["ISS ephemeris"; "2020"; "0 1 0 0"; "60 0 2 0"; "120 0 0 3"; "180 1 1 1"]
  = load [""; "2020"; "0 1 0 0"; "60 0 2 0"; "120 0 0 3"; "180 1 1 1"].
Proof.
  split; [reflexivity|]. split; [reflexivity|].
  apply (@title_line_ignored calendar recorder met0_2014 Python2 _ _
           "ephemeris.mcc" "ephemeris.mcc" "ISS ephemeris" ""
           (join_lines ["2020"; "0 1 0 0"; "60 0 2 0"; "120 0 0 3"; "180 1 1 1"]));
    reflexivity.
Defined.

Lemma short_file_raises_witness :
  no_newline "ISS ephemeris" = true /\
  load ["ISS ephemeris"] = Raise IndexError_header.
Proof.
  split; [reflexivity|].
  apply (@short_file_raises calendar recorder met0_2014 _ "ephemeris.mcc"
           "ISS ephemeris"); [reflexivity | right; reflexivity].
Defined.

Lemma latlon_nd_pointwise_witness :
  exists self : @MCC recorder,
    new Python2 "iss4.mcc" = Ok self /\
    (exists la lo : list reading,
       fst (@latlon_nd lagrange recorder met0_2014
              (Array1 [t_min self; t_max self]) self)
       = Ok (Array1 la, Array1 lo) /\
       map (fun u => fst (query u self)) [t_min self; t_max self]
       = map Ok (combine la lo) /\
       List.length la = 2%nat /\ List.length lo = 2%nat) /\
    fst (@latlon_nd lagrange recorder met0_2014
           (Array1 [t_min self; t_max self + 1]) self)
    = Raise ValueError_out_of_domain.
Proof.
  eexists. split; [vm_compute; reflexivity|]. split.
  - apply (@latlon_nd_pointwise lagrange recorder met0_2014).
    intros u [<-|[<-|[]]]; eexists; vm_compute; reflexivity.
  - eapply (proj2 (proj2 (@latlon_nd_pointwise lagrange recorder met0_2014 _ _)))
      with (u := (_ + 1)%Qc); [right; left; reflexivity | vm_compute; reflexivity].
Defined.

Lemma epoch_from_year_token_witness :
  exists self : @MCC recorder,
    new Python2 "iss4.mcc" = Ok self /\
    disk "iss4.mcc" = Some iss4 /\
    nth_error (split (header2_of iss4)) 0 = Some "2020" /\
    year_token "2020" = true /\
    float "2020" = Ok (mcc_epoch_year self) /\
    @Time_isot_utc calendar "2020-01-01T00:00:00" = Some (mcc_epoch self).
Proof.
  eexists. split; [vm_compute; reflexivity|]. split; [reflexivity|].
  split; [vm_compute; reflexivity|]. split; [reflexivity|].
  apply (@epoch_from_year_token calendar recorder met0_2014 disk "iss4.mcc" iss4 "2020");
    [vm_compute; reflexivity | reflexivity | vm_compute; reflexivity | reflexivity].
Defined.

Lemma loaded_track_witness :
  exists (self : @MCC recorder) (ti x y z : Qc),
    new Python2 "iss4.mcc" = Ok self /\
    nth_error (tolist (t self)) 1 = Some ti /\
    nth_error (tolist (eci_x self)) 1 = Some x /\
    nth_error (tolist (eci_y self)) 1 = Some y /\
    nth_error (tolist (eci_z self)) 1 = Some z /\
    nth_error (tolist (lat self)) 1
    = Some (Latitude {| gcrs_cart := (x, y, z); gcrs_obstime := ti |}
                     {| itrs_obstime := ti |}) /\
    nth_error (tolist (lon self)) 1
    = Some (Longitude {| gcrs_cart := (x, y, z); gcrs_obstime := ti |}
                      {| itrs_obstime := ti |}).
Proof.
  do 5 eexists. split; [vm_compute; reflexivity|].
  split; [vm_compute; reflexivity|]. split; [vm_compute; reflexivity|].
  split; [vm_compute; reflexivity|]. split; [vm_compute; reflexivity|].
  apply (@loaded_track calendar recorder met0_2014 disk "iss4.mcc" _ 1%nat);
    vm_compute; reflexivity.
Defined.
